(** * FAA ACS monitor: change detection and extraction pipeline

    A shallow embedding of [scripts/monitor.py] and [scripts/pdf_processor.py]
    and the properties of their change-detection and section-parsing logic.

    Conventions of the embedding:
    - a Python [str] is the list of its Unicode code points ([str]), a
      [bytes] object is a [list byte];
    - [Optional[T]] is [option T];
    - the network, the clock and the text-extraction backends are an
      environment ([Env], [Backend]) the functions read from; every call of
      the clock or of the network advances a counter, so that an environment
      may answer differently at each call;
    - files are fields of a [Store]; the state files of fixed name (the
      registry, the change log, the summaries) are taken to be writable; a
      file named after a document is written unless the file system refuses
      its path (for instance a name longer than it allows), which the
      environment tells, or, for a text file, unless the text cannot be
      encoded. *)

From Stdlib Require Import ZArith NArith List Ascii String Lia Sorted Permutation.
From Stdlib Require Import DecimalString.
From Stdlib.Strings Require Import Byte.
From stdpp Require Import base option list gmap.

Set Default Proof Using "Type".

(** ** Python strings *)

(** A [str] is the sequence of its code points. *)
Abbreviation str := (list N).

(** The code points of an ASCII literal of the development. *)
Definition u (s : string) : str :=
  List.map N_of_ascii (list_ascii_of_string s).

(** [str.isspace()] on one character, also the class [\s] of [re] on [str]
    patterns: the characters whose bidirectional type is WS, B or S or whose
    category is Zs. *)
Definition isspace (c : N) : bool :=
  (((9 <=? c) && (c <=? 13)) || ((28 <=? c) && (c <=? 32))
   || (c =? 133) || (c =? 160) || (c =? 5760)
   || ((8192 <=? c) && (c <=? 8202)) || (c =? 8232) || (c =? 8233)
   || (c =? 8239) || (c =? 8287) || (c =? 12288))%N.

(** [s.lstrip()], [s.rstrip()] and [s.strip()] without argument. *)
Fixpoint lstrip (s : str) : str :=
  match s with
  | c :: s' => if isspace c then lstrip s' else s
  | [] => []
  end.

Definition rstrip (s : str) : str := rev (lstrip (rev s)).

Definition strip (s : str) : str := rstrip (lstrip s).

(** ** SHA-256 ([hashlib.sha256(data).hexdigest()], FIPS 180-4) *)

Module SHA256.
Local Open Scope Z_scope.

Definition w32 (x : Z) : Z := x mod 2 ^ 32.
Definition add32 (x y : Z) : Z := w32 (x + y).
Definition rotr (n x : Z) : Z :=
  Z.lor (Z.shiftr x n) (w32 (Z.shiftl x (32 - n))).
Definition not32 (x : Z) : Z := 2 ^ 32 - 1 - x.

Definition Ch (x y z : Z) : Z := Z.lxor (Z.land x y) (Z.land (not32 x) z).
Definition Maj (x y z : Z) : Z :=
  Z.lxor (Z.lxor (Z.land x y) (Z.land x z)) (Z.land y z).
Definition Sigma0 (x : Z) : Z := Z.lxor (Z.lxor (rotr 2 x) (rotr 13 x)) (rotr 22 x).
Definition Sigma1 (x : Z) : Z := Z.lxor (Z.lxor (rotr 6 x) (rotr 11 x)) (rotr 25 x).
Definition sigma0 (x : Z) : Z := Z.lxor (Z.lxor (rotr 7 x) (rotr 18 x)) (Z.shiftr x 3).
Definition sigma1 (x : Z) : Z := Z.lxor (Z.lxor (rotr 17 x) (rotr 19 x)) (Z.shiftr x 10).

(** The constants are the first 32 bits of the fractional parts of the
    cube roots (round constants) and of the square roots (initial hash) of
    the first primes. *)
Definition is_prime (n : nat) : bool :=
  forallb (fun d => negb (n mod d =? 0)%nat) (seq 2 (n - 2)).

Definition primes : list Z := List.map Z.of_nat (List.filter is_prime (seq 2 310)).

(** The integer cube root of [x] between [lo] and [hi], by bisection. *)
Fixpoint cbrt_between (n : nat) (lo hi x : Z) : Z :=
  match n with
  | O => lo
  | S n' =>
      let mid := (lo + hi) / 2 in
      if mid * mid * mid <=? x then cbrt_between n' mid hi x else cbrt_between n' lo mid x
  end.

Definition K : list Z :=
  Eval vm_compute in
    List.map (fun p => w32 (cbrt_between 40 0 (2 ^ 35) (p * 2 ^ 96))) primes.

Definition H0 : list Z :=
  Eval vm_compute in
    List.map (fun p => w32 (Z.sqrt (p * 2 ^ 64))) (firstn 8 primes).

(** Big-endian bytes of [x], [n] of them. *)
Fixpoint be_bytes (n : nat) (x : Z) : list Z :=
  match n with
  | O => []
  | S n' => (Z.shiftr x (8 * Z.of_nat n')) mod 256 :: be_bytes n' x
  end.

(** The message, a 1 bit, zeros up to 56 modulo 64, the bit length on 8 bytes. *)
Definition pad (msg : list Z) : list Z :=
  let len := Z.of_nat (length msg) in
  let zeros := Z.to_nat ((55 - len) mod 64) in
  msg ++ 128 :: repeat 0 zeros ++ be_bytes 8 (8 * len).

Fixpoint be_words (bs : list Z) : list Z :=
  match bs with
  | b0 :: b1 :: b2 :: b3 :: bs' =>
      (b0 * 2 ^ 24 + b1 * 2 ^ 16 + b2 * 2 ^ 8 + b3) :: be_words bs'
  | _ => []
  end.

(** The message schedule, most recent word first: [W t] from the sixteen
    words before it. *)
Fixpoint schedule (n : nat) (w : list Z) : list Z :=
  match n with
  | O => w
  | S n' =>
      let wt := add32 (add32 (sigma1 (nth 1 w 0)) (nth 6 w 0))
                      (add32 (sigma0 (nth 14 w 0)) (nth 15 w 0)) in
      schedule n' (wt :: w)
  end.

Definition round (st : list Z) (kw : Z * Z) : list Z :=
  match st with
  | [a; b; c; d; e; f; g; h] =>
      let t1 := add32 (add32 (add32 h (Sigma1 e)) (add32 (Ch e f g) (fst kw))) (snd kw) in
      let t2 := add32 (Sigma0 a) (Maj a b c) in
      [add32 t1 t2; a; b; c; add32 d t1; e; f; g]
  | _ => st
  end.

Definition compress (h : list Z) (block : list Z) : list Z :=
  let w := rev (schedule 48 (rev block)) in
  let st := fold_left round (combine K w) h in
  List.map (fun p => add32 (fst p) (snd p)) (combine h st).

(** The blocks of sixteen words in turn; [n] bounds their number. *)
Fixpoint blocks (n : nat) (h : list Z) (ws : list Z) : list Z :=
  match n, ws with
  | S n', _ :: _ => blocks n' (compress h (firstn 16 ws)) (skipn 16 ws)
  | _, _ => h
  end.

Definition digest (data : list byte) : list Z :=
  let ws := be_words (pad (List.map (fun b => Z.of_N (Byte.to_N b)) data)) in
  blocks (length ws) H0 ws.

Definition hex_digit (d : Z) : N :=
  Z.to_N (if d <? 10 then 48 + d else 87 + d).

Definition hex_byte (b : Z) : list N := [hex_digit (b / 16); hex_digit (b mod 16)].

Definition hexdigest (data : list byte) : str :=
  flat_map hex_byte (flat_map (be_bytes 4) (digest data)).

End SHA256.

(** ** The builtins of the interpreter

    Functions of the Python runtime whose value depends on its Unicode
    database or on its numeric grammar; the program is embedded over any
    choice of them. *)

Record Builtins := {
  (** [c.isalnum()] for a one-character string *)
  str_isalnum : N -> bool;
  (** [int(s)]; [None] stands for [ValueError] *)
  int_of_str : str -> option Z;
  (** the class [\d] of [re] on [str] patterns (category Nd) *)
  re_digit : N -> bool
}.

(** ** Regular expressions ([re], the fragment the program uses)

    Every pattern of the program is compiled with [re.IGNORECASE] (and
    [re.MULTILINE], which changes [^] and [$] only; no pattern has them).
    All quantifiers of the program apply to one-character sets, which the
    engine matches greedily and backtracks one character at a time. *)

Module Re.

Inductive category := Space | Digit.

(** The members of a bracketed class. *)
Inductive citem :=
| CChr (c : N)
| CRng (lo hi : N)
| CCat (k : category).

(** One-character sets. *)
Inductive cset :=
| Lit (c : N)
| Class (neg : bool) (items : list citem)
| Cat (k : category).

Inductive item :=
| One (c : cset)
| Many (c : cset) (lo : nat) (hi : option nat)
| Mark (i : nat).

(** Group [g] (from 1) spans mark [2 * (g - 1)] to mark [2 * (g - 1) + 1]. *)
Abbreviation pattern := (list item).

(** *** Compilation of the pattern text *)

Inductive mode :=
| MTop
| MEsc
| MClassStart
| MClass (neg : bool) (items : list citem)
| MClassEsc (neg : bool) (items : list citem)
| MClassDash (neg : bool) (items : list citem) (lo : N).

Definition escape_top (c : ascii) : option cset :=
  match c with
  | "s"%char => Some (Cat Space)
  | "d"%char => Some (Cat Digit)
  | "n"%char => Some (Lit 10)
  | "."%char | "-"%char | ":"%char | "/"%char => Some (Lit (N_of_ascii c))
  | _ => None
  end.

Definition escape_class (c : ascii) : option citem :=
  match c with
  | "s"%char => Some (CCat Space)
  | "d"%char => Some (CCat Digit)
  | "n"%char => Some (CChr 10)
  | "."%char | "-"%char | ":"%char | "/"%char => Some (CChr (N_of_ascii c))
  | _ => None
  end.

Definition quantify (lo : nat) (hi : option nat) (acc : list item) : option (list item) :=
  match acc with
  | One c :: acc' => Some (Many c lo hi :: acc')
  | _ => None
  end.

(** [acc] holds the items read so far, last first; [ngroups] counts the
    groups opened, [stack] the groups still open. Syntax outside the
    fragment gives [None]. *)
Fixpoint parse (s : list ascii) (m : mode) (acc : list item)
    (ngroups : nat) (stack : list nat) : option pattern :=
  match s with
  | [] =>
      match m, stack with
      | MTop, [] => Some (rev acc)
      | _, _ => None
      end
  | c :: s' =>
      match m with
      | MTop =>
          match c with
          | "("%char => parse s' MTop (Mark (2 * ngroups) :: acc) (S ngroups) (ngroups :: stack)
          | ")"%char =>
              match stack with
              | g :: stack' => parse s' MTop (Mark (2 * g + 1) :: acc) ngroups stack'
              | [] => None
              end
          | "+"%char => acc' ← quantify 1 None acc; parse s' MTop acc' ngroups stack
          | "*"%char => acc' ← quantify 0 None acc; parse s' MTop acc' ngroups stack
          | "?"%char => acc' ← quantify 0 (Some 1) acc; parse s' MTop acc' ngroups stack
          | "\"%char => parse s' MEsc acc ngroups stack
          | "["%char => parse s' MClassStart acc ngroups stack
          | "."%char | "^"%char | "$"%char | "|"%char | "{"%char | "}"%char | "]"%char => None
          | _ => parse s' MTop (One (Lit (N_of_ascii c)) :: acc) ngroups stack
          end
      | MEsc => cs ← escape_top c; parse s' MTop (One cs :: acc) ngroups stack
      | MClassStart =>
          match c with
          | "^"%char => parse s' (MClass true []) acc ngroups stack
          | "]"%char | "-"%char | "["%char => None
          | "\"%char => parse s' (MClassEsc false []) acc ngroups stack
          | _ => parse s' (MClass false [CChr (N_of_ascii c)]) acc ngroups stack
          end
      | MClass neg items =>
          match c with
          | "]"%char =>
              match items with
              | [] => None
              | _ => parse s' MTop (One (Class neg (rev items)) :: acc) ngroups stack
              end
          | "\"%char => parse s' (MClassEsc neg items) acc ngroups stack
          | "-"%char =>
              match items with
              | CChr lo :: items' => parse s' (MClassDash neg items' lo) acc ngroups stack
              | _ => None
              end
          | "["%char => None
          | _ => parse s' (MClass neg (CChr (N_of_ascii c) :: items)) acc ngroups stack
          end
      | MClassEsc neg items =>
          i ← escape_class c; parse s' (MClass neg (i :: items)) acc ngroups stack
      | MClassDash neg items lo =>
          match c with
          | "]"%char | "\"%char | "["%char => None
          | _ =>
              let hi := N_of_ascii c in
              if (lo <=? hi)%N
              then parse s' (MClass neg (CRng lo hi :: items)) acc ngroups stack
              else None
          end
      end
  end.

(** A pattern text of the fragment is ASCII. *)
Definition compile (p : string) : option pattern :=
  if forallb (fun c => (N_of_ascii c <? 128)%N) (list_ascii_of_string p)
  then parse (list_ascii_of_string p) MTop [] 0 []
  else None.

(** *** Matching *)

(** [unicode_tolower] of [_sre], given on the characters it sends to an
    ASCII letter; the patterns test its result against ASCII letters and
    their fixes only, where the other characters count as themselves. *)
Definition lower (c : N) : N :=
  (if (65 <=? c) && (c <=? 90) then c + 32
   else if c =? 304 then 105
   else if c =? 8490 then 107
   else c)%N.

(** [unicode_iscased] on the characters a pattern of the fragment can hold
    (ASCII). *)
Definition iscased (c : N) : bool :=
  (((65 <=? c) && (c <=? 90)) || ((97 <=? c) && (c <=? 122)))%N.

(** [_ignorecase_fixes] of [sre_compile] at a lowercase ASCII letter:
    dotless i for [i], long s for [s]. *)
Definition fixes (lo : N) : list N :=
  (if lo =? 105 then [305] else if lo =? 115 then [383] else [])%N.

(** The set a cased literal [p] is compiled to: its lowercase and its fixes. *)
Definition folded (p : N) : list N := lower p :: fixes (lower p).

Definition in_list (x : N) (l : list N) : bool := existsb (N.eqb x) l.

(** The characters from [lo] to [hi]. *)
Definition chars_between (lo hi : N) : list N :=
  List.map (fun k => (lo + N.of_nat k)%N) (seq 0 (N.to_nat (hi + 1 - lo))).

Section Matching.
Variable digit : N -> bool.

Definition in_category (k : category) (c : N) : bool :=
  match k with
  | Space => isspace c
  | Digit => digit c
  end.

Definition citem_cased (i : citem) : bool :=
  match i with
  | CChr c => iscased c
  | CRng lo hi => existsb iscased (chars_between lo hi)
  | CCat _ => false
  end.

(** Membership as written, for a class without cased member. *)
Definition citem_exact (c : N) (i : citem) : bool :=
  match i with
  | CChr x => (c =? x)%N
  | CRng lo hi => ((lo <=? c) && (c <=? hi))%N
  | CCat k => in_category k c
  end.

(** Membership in the class [_optimize_charset] builds under IGNORECASE:
    every member lowercased, with its fixes. *)
Definition citem_folded (c : N) (i : citem) : bool :=
  match i with
  | CChr x => in_list c (folded x)
  | CRng lo hi => existsb (fun x => in_list c (folded x)) (chars_between lo hi)
  | CCat k => in_category k c
  end.

Definition cset_match (cs : cset) (c : N) : bool :=
  match cs with
  | Lit p => if iscased p then in_list (lower c) (folded p) else (c =? p)%N
  | Class neg items =>
      xorb neg
        (if existsb citem_cased items
         then existsb (citem_folded (lower c)) items
         else existsb (citem_exact c) items)
  | Cat k => in_category k c
  end.

(** The length of the longest run of [cs] at the head of [s], at most [hi]. *)
Fixpoint run_length (cs : cset) (hi : option nat) (s : str) : nat :=
  match s, hi with
  | _, Some O => O
  | c :: s', _ =>
      if cset_match cs c then S (run_length cs (pred <$> hi) s') else O
  | [], _ => O
  end.

Abbreviation marks := (list (nat * nat)).

(** [run p s pos ms]: match [p] at the head of [s], which starts at offset
    [pos] of the text; the end offset and the marks on success. A repeat
    takes the longest run and gives back one character at a time. *)
Fixpoint run (p : pattern) (s : str) (pos : nat) (ms : marks) {struct p}
    : option (nat * marks) :=
  match p with
  | [] => Some (pos, ms)
  | Mark i :: p' => run p' s pos ((i, pos) :: ms)
  | One cs :: p' =>
      match s with
      | c :: s' => if cset_match cs c then run p' s' (S pos) ms else None
      | [] => None
      end
  | Many cs lo hi :: p' =>
      (fix give_back (k : nat) : option (nat * marks) :=
         match (if lo <=? k then run p' (skipn k s) (pos + k) ms else None) with
         | Some r => Some r
         | None =>
             match k with
             | O => None
             | S k' => give_back k'
             end
         end) (run_length cs hi s)
  end.

Record rmatch := {
  m_start : nat;
  m_end : nat;
  m_marks : marks
}.

(** [scan p s pos skip]: the matches of [p] in the text from offset [pos],
    where [s] is the text from there and the first [skip] characters belong
    to the match before. *)
Fixpoint scan (p : pattern) (s : str) (pos skip : nat) : list rmatch :=
  match s with
  | [] => []
  | _ :: s' =>
      match skip with
      | S k => scan p s' (S pos) k
      | O =>
          match run p s pos [] with
          | Some (e, ms) =>
              {| m_start := pos; m_end := e; m_marks := ms |}
                :: scan p s' (S pos) (pred (e - pos))
          | None => scan p s' (S pos) 0
          end
      end
  end.

(** [re.finditer(pattern, text, re.IGNORECASE)], as a list. *)
Definition finditer (p : string) (text : str) : list rmatch :=
  match compile p with
  | Some r => scan r text 0 0
  | None => []
  end.

Definition lookup_mark (i : nat) (ms : marks) : option nat :=
  snd <$> List.find (fun m => Nat.eqb (fst m) i) ms.

Definition substring (text : str) (a b : nat) : str :=
  firstn (b - a) (skipn a text).

(** [match.group(g)] for a match in [text]; every group of the program's
    patterns takes part in every match. *)
Definition group (text : str) (m : rmatch) (g : nat) : str :=
  match g with
  | O => substring text (m_start m) (m_end m)
  | S g' =>
      match lookup_mark (2 * g') (m_marks m), lookup_mark (2 * g' + 1) (m_marks m) with
      | Some a, Some b => substring text a b
      | _, _ => []
      end
  end.

End Matching.
End Re.

(** ** Effects: a counter-stamped state monad

    [M S A] computes an [A] while threading a state [S]. *)

Definition M (S A : Type) : Type := S -> A * S.

#[global] Instance M_ret {S} : MRet (M S) := fun A (a : A) s => (a, s).
#[global] Instance M_bind {S} : MBind (M S) :=
  fun A B (f : A -> M S B) (m : M S A) s => let (a, s') := m s in f a s'.

Definition get {S} : M S S := fun s => (s, s).
Definition modify {S} (f : S -> S) : M S unit := fun s => (tt, f s).

(** [for x in l: acc = body(acc, x)]. *)
Fixpoint for_each {S A B} (body : B -> A -> M S B) (l : list A) (acc : B) : M S B :=
  match l with
  | [] => mret acc
  | x :: l' => acc' ← body acc x; for_each body l' acc'
  end.

(** ** [list.sort(key=...)]: a stable sort on a numeric key *)

Section Sort.
Context {A : Type} (key : A -> nat).

Fixpoint insert_by (x : A) (l : list A) : list A :=
  match l with
  | [] => [x]
  | y :: l' => if key x <=? key y then x :: l else y :: insert_by x l'
  end.

Definition sort_by (l : list A) : list A := foldr insert_by [] l.

End Sort.

(** ** [scripts/pdf_processor.py] *)

Module Processor.

Inductive mvalue := MInt (n : Z) | MStr (s : str).

(** A metadata dictionary, keys in insertion order. *)
Abbreviation Metadata := (list (string * mvalue)).

(** An opened [fitz] document: [page_count], [metadata] and the
    [get_text()] of its pages. *)
Record FitzDoc := {
  page_count : Z;
  doc_metadata : list (string * str);
  page_texts : list str
}.

(** The PDF libraries the module imports, and which of the imports
    succeeded. A call that raises gives [None]; for [fitz], that is opening
    the file or reading from it what [FitzDoc] holds. *)
Record Backend := {
  HAS_PYMUPDF4LLM : bool;
  HAS_PDFTEXT : bool;
  HAS_PYMUPDF : bool;
  pymupdf4llm_to_markdown : str -> option str;
  plain_text_output : str -> option str;
  (** the number of pages [dictionary_output] returns *)
  dictionary_output : str -> option nat;
  fitz_open : str -> option FitzDoc
}.

Inductive Method := pymupdf4llm | pdftext | pymupdf.

Record Section_ := {
  sec_type : str;
  sec_content : str;
  sec_position : nat;
  sec_length : nat
}.

Record AreaOfOperation := { number : str; title : str }.
Record Task := { code : str; task_title : str }.

Record Standards := {
  areas_of_operation : list AreaOfOperation;
  tasks : list Task;
  references : list str;
  objectives : list str;
  knowledge_elements : list str;
  risk_management : list str;
  skill_elements : list str
}.

Record StructuredContent := {
  standards : Standards;
  sc_metadata : Metadata;
  word_count : nat;
  character_count : nat
}.

Record ProcessedDocument := {
  name : str;
  source_path : str;
  text_content : str;
  structured_content : option StructuredContent;
  sections : option (list Section_);
  metadata : option Metadata;
  processing_method : option Method;
  processed_at : option str
}.

Record Summary := {
  sum_processed_at : str;
  total_documents : nat;
  successfully_processed : nat;
  sum_processing_method : Method;
  documents : list str
}.

(** A file [save_processed_document] opened for a document: [Whole] when
    the rendering of the document was written to it, [Part] when a write
    raised and the file holds only what was written before. *)
Inductive Artifact :=
| Whole (doc : ProcessedDocument)
| Part (doc : ProcessedDocument).

(** The state of an extraction run: the clock readings so far, the
    artifacts [save_processed_document] left, by path, and the run
    summary. *)
Record World := {
  tick : nat;
  saved : gmap str Artifact;
  processing_summary : option Summary
}.

(** A text the UTF-8 codec encodes: it holds no surrogate code point. *)
Definition encodable (s : str) : bool :=
  forallb (fun c => negb ((55296 <=? c) && (c <=? 57343))%N) s.

(** [pathlib] on a POSIX path given as text: the parts between slashes,
    but for the empty ones and the dots; the root (two leading slashes are
    kept, three or more are one); [str(Path(p))], [Path(p).name] and
    [Path(p).stem]. *)
Fixpoint until (c : N) (s : str) : str :=
  match s with
  | [] => []
  | x :: s' => if (x =? c)%N then [] else x :: until c s'
  end.

Fixpoint split_on (c : N) (s : str) : list str :=
  match s with
  | [] => [[]]
  | x :: s' =>
      if (x =? c)%N then [] :: split_on c s'
      else match split_on c s' with
           | part :: parts => (x :: part) :: parts
           | [] => [[x]]
           end
  end.

Definition is_part (part : str) : bool :=
  match part with
  | [] => false
  | [c] => negb (c =? 46)%N
  | _ => true
  end.

Definition path_parts (p : str) : list str := List.filter is_part (split_on 47 p).

Definition path_root (p : str) : str :=
  match p with
  | c1 :: c2 :: c3 :: _ =>
      if (c1 =? 47)%N
      then if (c2 =? 47)%N then if (c3 =? 47)%N then [47%N] else [47%N; 47%N] else [47%N]
      else []
  | [c1; c2] =>
      if (c1 =? 47)%N then if (c2 =? 47)%N then [47%N; 47%N] else [47%N] else []
  | [c1] => if (c1 =? 47)%N then [47%N] else []
  | [] => []
  end.

Definition path_name (p : str) : str := default [] (last (path_parts p)).

Definition path_stem (p : str) : str :=
  let name := path_name p in
  let k := length (until 46 (rev name)) in
  if (0 <? k) && (S k <? length name) then rev (skipn (S k) (rev name)) else name.

(** [sep.join(parts)]. *)
Fixpoint join (sep : str) (parts : list str) : str :=
  match parts with
  | [] => []
  | [p] => p
  | p :: ps => p ++ sep ++ join sep ps
  end.

Definition path_str (p : str) : str :=
  match path_root p ++ join [47%N] (path_parts p) with
  | [] => [46%N]
  | s => s
  end.

Definition text_dir : str := u "data/extracted-text".
Definition metadata_dir : str := u "data/metadata".

(** The three artifacts of a document named [name]. *)
Definition text_file (name : str) : str := text_dir ++ u "/" ++ name ++ u ".txt".
Definition md_file (name : str) : str := text_dir ++ u "/" ++ name ++ u ".md".
Definition metadata_file (name : str) : str :=
  metadata_dir ++ u "/" ++ name ++ u "_processed.json".

(** The texts of [doc] that go into its markdown file, in the order of the
    writes (the references but for their order); what is written between
    them is ASCII. *)
Definition md_strings (doc : ProcessedDocument) : list str :=
  [name doc; default (u "None") (processed_at doc); source_path doc]
  ++ match structured_content doc with
     | Some sc =>
         flat_map (fun aoo => [number aoo; title aoo]) (areas_of_operation (standards sc))
         ++ flat_map (fun task => [code task; task_title task]) (tasks (standards sc))
         ++ references (standards sc)
     | None => []
     end
  ++ [text_content doc].

(** [len(text.split())]: the number of maximal runs without whitespace;
    [inword] tells whether the character before was in such a run. *)
Fixpoint count_words (inword : bool) (s : str) : nat :=
  match s with
  | [] => 0
  | c :: s' =>
      if isspace c then count_words false s'
      else if inword then count_words true s' else S (count_words true s')
  end.

Definition section_patterns : list string :=
  [ "(AREA OF OPERATION\s+[IVXLC]+)\s*[:\-]\s*([^\n]+)";
    "(TASK\s+[A-Z]+)\.\s*([^\n]+)";
    "(REFERENCES?:?\s*)([^\n]+)";
    "(OBJECTIVE:?\s*)([^\n]+)";
    "(KNOWLEDGE:?\s*)([^\n]+)";
    "(RISK MANAGEMENT:?\s*)([^\n]+)";
    "(SKILLS:?\s*)([^\n]+)" ]%string.

Definition aoo_pattern : string := "AREA OF OPERATION\s+([IVXLC]+)\s*[:\-]\s*([^\n]+)".
Definition task_pattern : string := "TASK\s+([A-Z]+)\.\s*([^\n]+)".
Definition ref_patterns : list string :=
  [ "14 CFR part (\d+)"; "AC (\d+-\d+[A-Z]*)"; "AIM (\d+-\d+-\d+)"; "POH/AFM" ]%string.

Section WithRuntime.
Variable py : Builtins.
Variable be : Backend.
Variable clock : nat -> str.
(** The paths the file system refuses to open for writing. *)
Variable unwritable : str -> bool.

Definition finditer := Re.finditer (re_digit py).

(** [datetime.now().isoformat()]. *)
Definition now : M World str :=
  fun w => (clock (tick w),
            {| tick := S (tick w); saved := saved w;
               processing_summary := processing_summary w |}).

Definition _determine_processing_method : option Method :=
  if HAS_PYMUPDF4LLM be then Some pymupdf4llm
  else if HAS_PDFTEXT be then Some pdftext
  else if HAS_PYMUPDF be then Some pymupdf
  else None.

Definition meta_get (k : string) (d : list (string * str)) : str :=
  match List.find (fun kv => String.eqb (fst kv) k) d with
  | Some kv => snd kv
  | None => []
  end.

Definition fitz_metadata (doc : FitzDoc) : Metadata :=
  [ ("page_count", MInt (page_count doc));
    ("title", MStr (meta_get "title" (doc_metadata doc)));
    ("author", MStr (meta_get "author" (doc_metadata doc)));
    ("creation_date", MStr (meta_get "creationDate" (doc_metadata doc)));
    ("modification_date", MStr (meta_get "modDate" (doc_metadata doc))) ]%string.

(** Each extractor catches every exception and answers [("", {})]. *)
Definition extract_text_pymupdf4llm (pdf_path : str) : str * Metadata :=
  match pymupdf4llm_to_markdown be pdf_path with
  | None => ([], [])
  | Some markdown_text =>
      if HAS_PYMUPDF be then
        match fitz_open be pdf_path with
        | None => ([], [])
        | Some doc =>
            (* [if doc:] holds when the document has pages *)
            if (page_count doc =? 0)%Z then (markdown_text, [])
            else (markdown_text, fitz_metadata doc)
        end
      else (markdown_text, [])
  end.

Definition extract_text_pdftext (pdf_path : str) : str * Metadata :=
  match plain_text_output be pdf_path with
  | None => ([], [])
  | Some text =>
      match dictionary_output be pdf_path with
      | None => ([], [])
      | Some pages =>
          (text, [ ("page_count", MInt (Z.of_nat pages));
                   ("extraction_method", MStr (u "pdftext")) ]%string)
      end
  end.

Definition extract_text_pymupdf (pdf_path : str) : str * Metadata :=
  match fitz_open be pdf_path with
  | None => ([], [])
  | Some doc => (join [10%N] (page_texts doc), fitz_metadata doc)
  end.

Definition extract_text (method : Method) (pdf_path : str) : str * Metadata :=
  match method with
  | pymupdf4llm => extract_text_pymupdf4llm pdf_path
  | pdftext => extract_text_pdftext pdf_path
  | pymupdf => extract_text_pymupdf pdf_path
  end.

Definition section_of_match (text : str) (m : Re.rmatch) : Section_ :=
  {| sec_type := strip (Re.group text m 1);
     sec_content := strip (Re.group text m 2);
     sec_position := Re.m_start m;
     sec_length := length (Re.group text m 0) |}.

Definition parse_acs_sections (text : str) : list Section_ :=
  let sections :=
    flat_map (fun pattern => List.map (section_of_match text) (finditer pattern text))
             section_patterns in
  sort_by sec_position sections.

Definition extract_acs_standards (text : str) : Standards :=
  {| areas_of_operation :=
       List.map (fun m => {| number := Re.group text m 1;
                             title := strip (Re.group text m 2) |})
                (finditer aoo_pattern text);
     tasks :=
       List.map (fun m => {| code := Re.group text m 1;
                             task_title := strip (Re.group text m 2) |})
                (finditer task_pattern text);
     references :=
       flat_map (fun pattern => List.map (fun m => Re.group text m 0) (finditer pattern text))
                ref_patterns;
     objectives := [];
     knowledge_elements := [];
     risk_management := [];
     skill_elements := [] |}.

Definition process_document (method : Method) (pdf_path : str) : M World ProcessedDocument :=
  let '(text_content, metadata) := extract_text method pdf_path in
  match text_content with
  | [] =>
      t ← now;
      mret {| name := path_stem pdf_path;
              source_path := path_str pdf_path;
              text_content := [];
              structured_content := None;
              sections := None;
              metadata := None;
              processing_method := Some method;
              processed_at := Some t |}
  | _ =>
      let sections := parse_acs_sections text_content in
      let acs_standards := extract_acs_standards text_content in
      let structured_content :=
        {| standards := acs_standards;
           sc_metadata := metadata;
           word_count := count_words false text_content;
           character_count := length text_content |} in
      t ← now;
      mret {| name := path_stem pdf_path;
              source_path := path_str pdf_path;
              text_content := text_content;
              structured_content := Some structured_content;
              sections := Some sections;
              metadata := Some metadata;
              processing_method := Some method;
              processed_at := Some t |}
  end.

(** [with open(path, 'w') as f: f.write(...)] for a rendering of [doc]
    whose texts are [encoded] or not; [false] stands for an exception: of
    [open], and then nothing is written, or of a [write] whose text cannot
    be encoded, and then the file is left with what was written before. *)
Definition write_artifact (path : str) (encoded : bool) (doc : ProcessedDocument)
    : M World bool :=
  fun w =>
    if unwritable path then (false, w)
    else (encoded, {| tick := tick w;
                      saved := <[path := if encoded then Whole doc else Part doc]> (saved w);
                      processing_summary := processing_summary w |}).

(** The text and the markdown of [doc], in UTF-8, and its JSON, which
    [json.dump] writes in ASCII, in this order; [false] when one of the
    three raises, the ones before it being done. *)
Definition save_processed_document (doc : ProcessedDocument) : M World bool :=
  ok ← write_artifact (text_file (name doc)) (encodable (text_content doc)) doc;
  if ok : bool then
    ok ← write_artifact (md_file (name doc)) (forallb encodable (md_strings doc)) doc;
    if ok : bool then write_artifact (metadata_file (name doc)) true doc
    else mret false
  else mret false.

(** One turn of the loop of [process_all_documents]: a document whose
    artifacts cannot all be written is logged by the [except] and left out
    of [processed_docs] ([process_document] itself raises nothing: the
    extractors catch their own exceptions and the parsing is total). *)
Definition process_step (method : Method) (processed_docs : list ProcessedDocument)
    (pdf_file : str) : M World (list ProcessedDocument) :=
  processed_doc ← process_document method pdf_file;
  ok ← save_processed_document processed_doc;
  if ok : bool then mret (processed_docs ++ [processed_doc])
  else mret processed_docs.

(** [pdf_files]: the result of [docs_dir.glob("*.pdf")], [None] when the
    directory does not exist. The answer is the list [processed_docs]. *)
Definition process_all_documents (method : Method) (pdf_files : option (list str))
    : M World (list ProcessedDocument) :=
  match pdf_files with
  | None => mret []
  | Some [] => mret []
  | Some files =>
      processed_docs ←
        for_each (process_step method) files [];
      t ← now;
      _ ← modify (fun w =>
            {| tick := tick w;
               saved := saved w;
               processing_summary :=
                 Some {| sum_processed_at := t;
                         total_documents := length files;
                         successfully_processed := length processed_docs;
                         sum_processing_method := method;
                         documents := List.map name processed_docs |} |});
      mret processed_docs
  end.

(** *** Notions the properties are stated with *)

(** The sections before sorting: the matches of the seven rules, rule by
    rule. *)
Definition matched_sections (text : str) : list Section_ :=
  flat_map (fun pattern => List.map (section_of_match text)
                                    (finditer pattern text))
           section_patterns.




(** The three artifacts of [doc] can be written: each path can be opened
    and each text encoded. *)
Definition savable (doc : ProcessedDocument) : bool :=
  negb (unwritable (text_file (name doc))) && encodable (text_content doc)
  && negb (unwritable (md_file (name doc))) && forallb encodable (md_strings doc)
  && negb (unwritable (metadata_file (name doc))).

End WithRuntime.
End Processor.

(** ** [scripts/monitor.py] *)

Module Monitor.

Record ACSDocument := {
  name : str;
  url : str;
  last_modified : option str;
  etag : option str;
  content_hash : option str;
  file_size : option Z;
  local_path : option str;
  last_checked : option str
}.

#[global] Instance ACSDocument_eq_dec : EqDecision ACSDocument.
Proof. solve_decision. Defined.

Inductive ChangeType := new | updated.

(** An entry of the change log: [type], [document] (the [asdict] snapshot)
    and [timestamp]. *)
Record ChangeEvent := {
  type : ChangeType;
  document : ACSDocument;
  timestamp : str
}.

Record RunSummary := {
  sum_timestamp : str;
  total_documents : nat;
  changes_detected : nat;
  changes : list ChangeEvent
}.

(** The answer to a HEAD request: the status and the three headers read. *)
Record HeadResponse := {
  status_code : Z;
  Last_Modified : option str;
  ETag : option str;
  Content_Length : option str
}.

Record GetResponse := {
  get_status_code : Z;
  content : list byte
}.

(** The outside of a run, asked at the counter value of the call: the ACS
    page after scraping and keyword filtering (the name and absolute URL of
    each link kept), the server's answers, the clock. [None] stands for a
    raised exception. [unwritable] tells the paths the file system refuses
    to open for writing. *)
Record Env := {
  acs_links : nat -> option (list (str * str));
  session_head : nat -> str -> option HeadResponse;
  session_get : nat -> str -> option GetResponse;
  clock : nat -> str;
  unwritable : str -> bool
}.

(** What [known_documents.json] holds. *)
Inductive KnownFile :=
| Missing
| Unreadable
| Records (docs : list ACSDocument).

Record Store := {
  acs_documents : gmap str (list byte);
  known_documents_json : KnownFile;
  changes_json : option (list ChangeEvent);
  last_run_summary_json : option RunSummary
}.

Record World := {
  tick : nat;
  store : Store
}.

Definition docs_dir : str := u "data/acs-documents".

(** [ACSDocument(name=doc_name, url=href, last_checked=...)]: the other
    fields take their default, [None]. *)
Definition discovered_document (link : str * str) (t : str) : ACSDocument :=
  {| name := fst link; url := snd link;
     last_modified := None; etag := None;
     content_hash := None; file_size := None;
     local_path := None; last_checked := Some t |}.

(** The decision the header comparison stands for: [Escalate] when the
    flag [changed] is set and the body is fetched, [NoChange] otherwise. *)
Inductive Decision := NoChange | Escalate.

Section WithRuntime.
Variable py : Builtins.
Variable env : Env.

(** A call to the outside reads the counter and advances it. *)
Definition ask {A} (f : nat -> A) : M World A :=
  fun w => (f (tick w), {| tick := S (tick w); store := store w |}).

Definition write (f : Store -> Store) : M World unit :=
  modify (fun w => {| tick := tick w; store := f (store w) |}).

(** [datetime.now().isoformat()]. *)
Definition now : M World str := ask (clock env).

Definition discover_acs_documents : M World (list ACSDocument) :=
  links ← ask (acs_links env);
  match links with
  | None => mret []
  | Some links =>
      for_each (fun documents link =>
                  t ← now;
                  mret (documents ++ [discovered_document link t]))
               links []
  end.

Definition load_known_documents : M World (list ACSDocument) :=
  w ← get;
  match known_documents_json (store w) with
  | Records docs => mret docs
  | Missing | Unreadable => mret []
  end.

Definition save_known_documents (documents : list ACSDocument) : M World unit :=
  write (fun s => {| acs_documents := acs_documents s;
                     known_documents_json := Records documents;
                     changes_json := changes_json s;
                     last_run_summary_json := last_run_summary_json s |}).

(** The characters of the name kept in the file name. *)
Definition safe_char (c : N) : bool :=
  str_isalnum py c || (c =? 32)%N || (c =? 45)%N || (c =? 95)%N.

Definition download_and_verify (document : ACSDocument) : M World (bool * ACSDocument) :=
  response ← ask (fun t => session_get env t (url document));
  match response with
  | None => mret (false, document)
  | Some response =>
      (* raise_for_status *)
      if ((400 <=? get_status_code response) && (get_status_code response <? 600))%Z
      then mret (false, document)
      else
        let content_hash_ := SHA256.hexdigest (content response) in
        let safe_name := rstrip (List.filter safe_char (name document)) in
        let filename := safe_name ++ u ".pdf" in
        let local_path_ := docs_dir ++ u "/" ++ filename in
        if decide (content_hash document = Some content_hash_)
        then mret (false, document)
        else if unwritable env local_path_
        then (* [open] raises inside the [try] *) mret (false, document)
        else
          _ ← write (fun s =>
                 {| acs_documents := <[local_path_ := content response]> (acs_documents s);
                    known_documents_json := known_documents_json s;
                    changes_json := changes_json s;
                    last_run_summary_json := last_run_summary_json s |});
          mret (true,
                {| name := name document; url := url document;
                   last_modified := last_modified document; etag := etag document;
                   content_hash := Some content_hash_;
                   file_size := file_size document;
                   local_path := Some local_path_;
                   last_checked := last_checked document |})
  end.

(** [int(content_length) if content_length else None]; the outer [None]
    stands for the [ValueError] of [int]. *)
Definition header_file_size (content_length : option str) : option (option Z) :=
  match content_length with
  | None | Some [] => Some None
  | Some s => Some <$> int_of_str py s
  end.

(** The flag [changed] of [check_document_changes] after the three header
    comparisons. *)
Definition headers_changed (document : ACSDocument)
    (last_modified_ etag_ : option str) (file_size_ : option Z) : bool :=
  let changed := false in
  let changed := if decide (last_modified document ≠ last_modified_) then true else changed in
  let changed := if decide (etag document ≠ etag_) then true else changed in
  let changed := if decide (file_size document ≠ file_size_) then true else changed in
  changed.

Definition evaluate (document : ACSDocument)
    (last_modified_ etag_ : option str) (file_size_ : option Z) : Decision :=
  if headers_changed document last_modified_ etag_ file_size_ then Escalate else NoChange.

(** The body fetch of [download_and_verify] raises: the request itself, or
    [raise_for_status] on a 4xx or 5xx answer. *)
Definition fetch_fails (t : nat) (url_ : str) : Prop :=
  match session_get env t url_ with
  | None => True
  | Some response =>
      ((400 <=? get_status_code response) && (get_status_code response <? 600))%Z = true
  end.

Definition check_document_changes (document : ACSDocument) : M World (bool * ACSDocument) :=
  head_response ← ask (fun t => session_head env t (url document));
  match head_response with
  | None => mret (false, document)
  | Some head_response =>
      if decide (status_code head_response ≠ 200%Z)
      then mret (false, document)
      else
        let last_modified_ := Last_Modified head_response in
        let etag_ := ETag head_response in
        match header_file_size (Content_Length head_response) with
        | None => mret (false, document)
        | Some file_size_ =>
            t ← now;
            let updated_doc :=
              {| name := name document; url := url document;
                 last_modified := last_modified_; etag := etag_;
                 content_hash := None; file_size := file_size_;
                 local_path := None; last_checked := Some t |} in
            if headers_changed document last_modified_ etag_ (file_size updated_doc)
            then download_and_verify updated_doc
            else mret (false, updated_doc)
        end
  end.

(** [{doc.url: doc for doc in known_docs}]: a later record of a URL
    replaces an earlier one. *)
Definition index_by_url (known_docs : list ACSDocument) : gmap str ACSDocument :=
  foldl (fun m doc => <[url doc := doc]> m) ∅ known_docs.

(** One turn of the loop of [monitor] over the discovered documents; the
    pause of two seconds before each document has no effect on the state. *)
Definition monitor_step (known_urls : gmap str ACSDocument)
    (acc : list ChangeEvent * list ACSDocument) (doc : ACSDocument)
    : M World (list ChangeEvent * list ACSDocument) :=
  let '(changes, all_docs) := acc in
  match known_urls !! url doc with
  | Some known =>
      '(changed, updated_doc) ← check_document_changes known;
      changes ←
        (if changed : bool
         then t ← now;
              mret (changes ++ [{| type := updated; document := updated_doc; timestamp := t |}])
         else mret changes);
      mret (changes, all_docs ++ [updated_doc])
  | None =>
      '(_, downloaded_doc) ← download_and_verify doc;
      t ← now;
      mret (changes ++ [{| type := new; document := downloaded_doc; timestamp := t |}],
            all_docs ++ [downloaded_doc])
  end.

Definition monitor : M World unit :=
  known_docs ← load_known_documents;
  let known_urls := index_by_url known_docs in
  current_docs ← discover_acs_documents;
  '(changes, all_docs) ← for_each (monitor_step known_urls) current_docs ([], []);
  _ ← save_known_documents all_docs;
  _ ← (match changes with
       | [] => mret tt
       | _ :: _ =>
           write (fun s => {| acs_documents := acs_documents s;
                              known_documents_json := known_documents_json s;
                              changes_json := Some changes;
                              last_run_summary_json := last_run_summary_json s |})
       end);
  t ← now;
  write (fun s => {| acs_documents := acs_documents s;
                     known_documents_json := known_documents_json s;
                     changes_json := changes_json s;
                     last_run_summary_json :=
                       Some {| sum_timestamp := t;
                               total_documents := length all_docs;
                               changes_detected := length changes;
                               changes := changes |} |}).

(** *** Notions the properties are stated with *)

(** The state after one call to the outside. *)
Definition after_call (w : World) : World := {| tick := S (tick w); store := store w |}.

(** The GET answered with a body. *)
Definition fetched (t : nat) (url_ : str) (response : GetResponse) : Prop :=
  session_get env t url_ = Some response /\
  ((400 <=? get_status_code response) && (get_status_code response <? 600))%Z = false.

(** The record [updated_doc] of [check_document_changes]: the identity of
    the known record, the live headers, the time of the check; the stored
    hash and local path are not carried over. *)
Definition updated_doc_of (document : ACSDocument) (h : HeadResponse)
    (size : option Z) (t : str) : ACSDocument :=
  {| name := name document; url := url document;
     last_modified := Last_Modified h; etag := ETag h;
     content_hash := None; file_size := size;
     local_path := None; last_checked := Some t |}.

(** The probe answered 200 with a size that parses. *)
Definition probed (t : nat) (document : ACSDocument) (h : HeadResponse) (size : option Z) : Prop :=
  session_head env t (url document) = Some h /\
  status_code h = 200%Z /\
  header_file_size (Content_Length h) = Some size.

(** An entry of kind [new] of the change log. *)
Definition new_event (doc : ACSDocument) (t : str) : ChangeEvent :=
  {| type := new; document := doc; timestamp := t |}.

(** The links of the ACS page at counter value [t]; none when the request
    raises. *)
Definition links_at (t : nat) : list (str * str) := default [] (acs_links env t).

(** The events and records the loop of a run started in [w] ends with, and
    the state it leaves. *)
Definition run_loop (w : World)
    : (list ChangeEvent * list ACSDocument) * World :=
  for_each (monitor_step (index_by_url (fst (load_known_documents w))))
           (fst (discover_acs_documents w)) ([], [])
           (snd (discover_acs_documents w)).

(** The state of a run started in [w] when the turn of its [i]-th
    discovered document begins: the first call of the turn is made at the
    counter value of this state. *)
Definition turn_state (i : nat) (w : World) : World :=
  snd (for_each (monitor_step (index_by_url (fst (load_known_documents w))))
                (firstn i (fst (discover_acs_documents w))) ([], [])
                (snd (discover_acs_documents w))).

End WithRuntime.
End Monitor.

(** The builtins on ASCII input, for the examples. *)
Definition ascii_isalnum (c : N) : bool :=
  (((48 <=? c) && (c <=? 57)) || ((65 <=? c) && (c <=? 90)) || ((97 <=? c) && (c <=? 122)))%N.

Definition ascii_isdigit (c : N) : bool := ((48 <=? c) && (c <=? 57))%N.

(** [int(s)] on a text whose digits are ASCII: blanks around are dropped
    (the separators 28 to 31, which [str.isspace] takes for blanks, are not),
    one sign may come first, and the digits may be separated by single
    underscores; a text of more than 4300 digits is refused. *)
Definition int_blank (c : N) : bool := isspace c && negb ((28 <=? c) && (c <=? 31))%N.

Fixpoint skip_blanks (s : str) : str :=
  match s with
  | c :: s' => if int_blank c then skip_blanks s' else s
  | [] => []
  end.

Fixpoint ascii_digits (acc : Z) (after_digit : bool) (s : str) : option Z :=
  match s with
  | [] => if after_digit then Some acc else None
  | c :: s' =>
      if ascii_isdigit c then ascii_digits (10 * acc + Z.of_N (c - 48)) true s'
      else if (c =? 95)%N && after_digit then ascii_digits acc false s'
      else None
  end.

Definition max_str_digits : nat := 4300.

Definition ascii_int (s : str) : option Z :=
  let s := rev (skip_blanks (rev (skip_blanks s))) in
  if max_str_digits <? length (List.filter ascii_isdigit s) then None
  else match s with
       | c :: s' =>
           if (c =? 43)%N then ascii_digits 0 false s'
           else if (c =? 45)%N then Z.opp <$> ascii_digits 0 false s'
           else ascii_digits 0 false s
       | [] => None
       end.

Definition ascii_builtins : Builtins :=
  {| str_isalnum := ascii_isalnum; int_of_str := ascii_int; re_digit := ascii_isdigit |}.

(** ** Scenarios *)

Module Scenario.
Import Monitor.

Definition stamp (t : nat) : str := u "2026-01-01T00:00:0" ++ [(48 + N.of_nat t)%N].

Definition body : list byte := repeat "a"%byte 100.
Definition body_hash : str :=
  u "2816597888e4a0d3a36b82b83316ab32680eb8f00f8cd3b904d681246d285a0e".
Definition empty_hash : str :=
  u "e3b0c44298fc1c149afbf4c8996fb92427ae41e4649b934ca495991b7852b855".

(** The tracked document of scenarios A and B. *)
Definition known : ACSDocument :=
  {| name := u "Private Pilot ACS";
     url := u "https://www.faa.gov/acs/private_airplane_acs.pdf";
     last_modified := Some (u "T1");
     etag := Some (u "E1");
     content_hash := Some body_hash;
     file_size := Some 100%Z;
     local_path := Some (u "data/acs-documents/Private Pilot ACS.pdf");
     last_checked := Some (u "2025-12-01T00:00:00") |}.

(** The same document when its stored bytes are the empty payload. *)
Definition known_empty : ACSDocument :=
  {| name := name known; url := url known;
     last_modified := last_modified known; etag := etag known;
     content_hash := Some empty_hash; file_size := Some 0%Z;
     local_path := local_path known; last_checked := last_checked known |}.

Definition head_of (etag_ : string) : HeadResponse :=
  {| status_code := 200; Last_Modified := Some (u "T1");
     ETag := Some (u etag_); Content_Length := Some (u "100") |}.

(** A server that lists the tracked document, answers every HEAD with the
    stored headers but for the entity-tag [etag_], and every GET with
    [payload]. *)
Definition server (etag_ : string) (payload : list byte) : Env :=
  {| acs_links := fun _ => Some [(name known, url known)];
     session_head := fun _ _ => Some (head_of etag_);
     session_get := fun _ _ => Some {| get_status_code := 200; content := payload |};
     clock := stamp;
     unwritable := fun _ => false |}.

(** A document the registry does not know. *)
Definition other_link : str * str :=
  (u "Commercial Pilot ACS", u "https://www.faa.gov/acs/commercial_airplane_acs.pdf").

(** A page that lists [links] on a server whose documents cannot be
    fetched. *)
Definition unreachable (links : list (str * str)) : Env :=
  {| acs_links := fun _ => Some links;
     session_head := fun _ _ => None;
     session_get := fun _ _ => None;
     clock := stamp;
     unwritable := fun _ => false |}.

(** A page that lists [other_link] on a server that fails the GET made at
    counter value 2, the body fetch of a run started at 0, and answers every
    other GET with [body]. *)
Definition flaky : Env :=
  {| acs_links := fun _ => Some [other_link];
     session_head := fun _ _ => Some (head_of "E1");
     session_get := fun t _ =>
       if (t =? 2)%nat then None else Some {| get_status_code := 200; content := body |};
     clock := stamp;
     unwritable := fun _ => false |}.

(** A file system that refuses a file name of more than 255 characters. *)
Definition name_limit (path : str) : bool :=
  (255 <? length (Processor.path_name path))%nat.

(** The server of scenario B on such a file system. *)
Definition limited_server : Env :=
  {| acs_links := acs_links (server "E2" body);
     session_head := session_head (server "E2" body);
     session_get := session_get (server "E2" body);
     clock := stamp;
     unwritable := name_limit |}.

(** A document whose name makes a file name of 260 characters. *)
Definition long_named : ACSDocument :=
  {| name := repeat 120%N 256; url := url known;
     last_modified := None; etag := None;
     content_hash := None; file_size := None;
     local_path := None; last_checked := None |}.

(** An entry a run before wrote to the change log. *)
Definition stale_event : ChangeEvent :=
  {| type := updated; document := known; timestamp := u "2025-12-01T00:00:05" |}.

(** That document as discovered, never fetched before. *)
Definition unfetched : ACSDocument := discovered_document other_link (stamp 0).

Definition world (docs : KnownFile) (log : option (list ChangeEvent)) : World :=
  {| tick := 0;
     store := {| acs_documents := ∅; known_documents_json := docs;
                 changes_json := log; last_run_summary_json := None |} |}.

(** The text of scenario D. *)
Definition nl : string := String (ascii_of_nat 10) EmptyString.
Definition scenario_D_text : str :=
  u ("AREA OF OPERATION II: Airspace" ++ nl ++ "TASK A. Preflight Prep").

(** A backend that finds no text in [blank.pdf] and the text of scenario D
    in every other file. *)
Definition blank_pdf : str := u "data/acs-documents/blank.pdf".

Definition blank_backend : Processor.Backend :=
  {| Processor.HAS_PYMUPDF4LLM := true;
     Processor.HAS_PDFTEXT := false;
     Processor.HAS_PYMUPDF := false;
     Processor.pymupdf4llm_to_markdown :=
       fun path => if decide (path = blank_pdf) then Some [] else Some scenario_D_text;
     Processor.plain_text_output := fun _ => None;
     Processor.dictionary_output := fun _ => None;
     Processor.fitz_open := fun _ => None |}.

Definition extraction_world : Processor.World :=
  {| Processor.tick := 0; Processor.saved := ∅; Processor.processing_summary := None |}.


End Scenario.

(** ** [scripts/create_change_notification.py] *)

Module Notifier.
Import Monitor.

(** What [repo.create_issue] is called with. *)
Record Issue := {
  issue_title : str;
  issue_body : str;
  issue_labels : list str
}.

(** The outside of the notifier: the two environment variables, the
    GitHub client ([get_repo] answers whether the repository was found,
    [create_issue] with the URL of the issue; [false] and [None] stand for
    a raised exception) and the two renderings of the current time. *)
Record Github := {
  GITHUB_TOKEN : option str;
  GITHUB_REPOSITORY : option str;
  get_repo : str -> bool;
  create_issue : Issue -> option str;
  (** [datetime.now().strftime('%Y-%m-%d')] *)
  today : str;
  (** [datetime.now().strftime('%Y-%m-%d %H:%M:%S UTC')] *)
  detection_time : str
}.

(** How a call ends: one of the three early returns, an exception that
    escapes, or the issue created and its URL. *)
Inductive Outcome :=
| NoChangesFile
| NoChanges
| NoToken
| Raised
| Created (issue : Issue) (html_url : str).

(** [str(n)] for an integer. *)
Definition str_of_int (n : Z) : str := u (NilZero.string_of_int (Z.to_int n)).

(** How an f-string renders an optional field: the value, or [None]. *)
Definition format_str (o : option str) : str :=
  match o with
  | Some s => s
  | None => u "None"
  end.

Definition format_int (o : option Z) : str :=
  match o with
  | Some n => str_of_int n
  | None => u "None"
  end.

(** [change['type'].title()]. *)
Definition type_title (t : ChangeType) : str :=
  match t with
  | new => u "New"
  | updated => u "Updated"
  end.

(** The lines of one change. Every key of the record is present in the
    file, so the defaults of [doc.get] never apply; slicing the content hash
    raises when it is [None]. *)
Definition change_lines (change : ChangeEvent) : option (list str) :=
  let doc := document change in
  let change_type := type_title (type change) in
  match content_hash doc with
  | None => None
  | Some h =>
      Some [ u "### " ++ change_type ++ u ": " ++ name doc;
             u "- **URL:** " ++ url doc;
             u "- **Last Modified:** " ++ format_str (last_modified doc);
             u "- **File Size:** " ++ format_int (file_size doc) ++ u " bytes";
             u "- **Content Hash:** `" ++ firstn 16 h ++ u "...`";
             [] ]
  end.

(** The loop over the changes: the lines so far, extended change by
    change; [None] once a change raises. *)
Fixpoint extend_lines (body_lines : list str) (changes : list ChangeEvent)
    : option (list str) :=
  match changes with
  | [] => Some body_lines
  | change :: changes' =>
      match change_lines change with
      | None => None
      | Some lines => extend_lines (body_lines ++ lines) changes'
      end
  end.

Definition default_repository : str := u "PlenipotentiaryFounder/faa-acs-monitor".

(** [changes_file]: what [data/metadata/changes.json] holds, [None] when it
    does not exist. *)
Definition create_change_notification (gh : Github)
    (changes_file : option (list ChangeEvent)) : Outcome :=
  match changes_file with
  | None => NoChangesFile
  | Some [] => NoChanges
  | Some changes =>
      match GITHUB_TOKEN gh with
      | None | Some [] => NoToken
      | Some (_ :: _) =>
          if get_repo gh (default default_repository (GITHUB_REPOSITORY gh)) then
            let title := [128196%N] ++ u " FAA ACS Documents Updated - " ++ today gh in
            let body_lines :=
              [ u "## FAA ACS Document Changes Detected";
                [];
                u "**Detection Time:** " ++ detection_time gh;
                u "**Total Changes:** " ++ str_of_int (Z.of_nat (length changes));
                [] ] in
            match extend_lines body_lines changes with
            | None => Raised
            | Some body_lines =>
                let body_lines :=
                  body_lines ++
                  [ u "## Next Steps";
                    u "- [ ] Review document changes";
                    u "- [ ] Update training materials if needed";
                    u "- [ ] Check compliance requirements";
                    u "- [ ] Notify relevant stakeholders";
                    [];
                    u "---";
                    u "*This issue was automatically created by the FAA ACS monitoring system.*" ] in
                let body := Processor.join [10%N] body_lines in
                let issue :=
                  {| issue_title := title; issue_body := body;
                     issue_labels := [u "faa-acs"; u "document-update"; u "automated"] |} in
                match create_issue gh issue with
                | None => Raised
                | Some html_url => Created issue html_url
                end
            end
          else Raised
      end
  end.

End Notifier.

(** A GitHub client that finds the repository and creates every issue. *)
Module NotifierScenario.
Import Notifier.

Definition github : Github :=
  {| GITHUB_TOKEN := Some (u "ghp_token");
     GITHUB_REPOSITORY := None;
     get_repo := fun _ => true;
     create_issue := fun _ => Some (u "https://github.com/PlenipotentiaryFounder/faa-acs-monitor/issues/1");
     today := u "2026-01-01";
     detection_time := u "2026-01-01 00:00:09 UTC" |}.

(** Two files with the stem [a] and the blank file between them. *)
Definition stem_batch : list str :=
  [u "data/acs-documents/a.pdf"; Scenario.blank_pdf; u "other/a.pdf"].

End NotifierScenario.

(** The text of scenario D in lowercase, and the tracked document as the
    page lists it. *)
Module CaseScenario.

Definition lowercase_text : str :=
  u ("area of operation ii: airspace" ++ Scenario.nl ++ "task a. preflight prep").

Definition known_link : str * str :=
  (Monitor.name Scenario.known, Monitor.url Scenario.known).

End CaseScenario.

(** ** Notions for the further properties of the monitor *)

Module MonitorNotions.
Import Monitor.

(** The path [download_and_verify] writes the bytes of [document] to:
    [docs_dir / (safe_name + ".pdf")]. *)
Definition stored_file (py : Builtins) (document : ACSDocument) : str :=
  rstrip (List.filter (safe_char py) (name document)) ++ u ".pdf".

Definition stored_path (py : Builtins) (document : ACSDocument) : str :=
  docs_dir ++ u "/" ++ stored_file py document.

(** What one turn of the loop of [monitor] may add for the discovered
    document [doc], given the index [K] of the registry: the record [d] and
    the events [evs]. *)
Definition turn_outcome (K : gmap str ACSDocument) (doc d : ACSDocument)
    (evs : list ChangeEvent) : Prop :=
  url d = url doc /\
  match K !! url doc with
  | None => name d = name doc /\ exists t, evs = [new_event d t]
  | Some _ =>
      evs = [] \/
      (exists t, evs = [{| type := updated; document := d; timestamp := t |}]) /\
      is_Some (content_hash d) /\ is_Some (local_path d)
  end.

(** An event of a run agrees with the registry the run loaded. *)
Definition event_agrees (loaded : list ACSDocument) (ev : ChangeEvent) : Prop :=
  match type ev with
  | new => ~ In (url (document ev)) (List.map url loaded)
  | updated =>
      In (url (document ev)) (List.map url loaded) /\
      is_Some (content_hash (document ev)) /\ is_Some (local_path (document ev))
  end.

(** The registry file holds no record. *)
Definition no_registry (f : KnownFile) : Prop :=
  match f with
  | Missing | Unreadable | Records [] => True
  | Records (_ :: _) => False
  end.

End MonitorNotions.

(** ** Notions for the further properties of the extraction engine *)

Module EngineNotions.
Import Re.

(** The least number of characters a match of the pattern holds. *)
Definition min_width (p : pattern) : nat :=
  sum_list (List.map (fun i => match i with
                               | One _ => 1
                               | Many _ lo _ => lo
                               | Mark _ => 0
                               end) p).

(** The pattern and the marks once the groups outside [keep] are
    forgotten. *)
Definition kept_item (keep : nat -> bool) (i : item) : bool :=
  match i with
  | Mark k => keep k
  | _ => true
  end.

Definition forget_groups (keep : nat -> bool) (p : pattern) : pattern :=
  List.filter (kept_item keep) p.

Definition forget_marks (keep : nat -> bool) (ms : list (nat * nat)) : list (nat * nat) :=
  List.filter (fun m => keep (fst m)) ms.

Definition forget_in_match (keep : nat -> bool) (m : rmatch) : rmatch :=
  {| m_start := m_start m; m_end := m_end m; m_marks := forget_marks keep (m_marks m) |}.

(** The marks of group 2. *)
Definition group2 (k : nat) : bool := (k =? 2) || (k =? 3).

(** A match after the match [m1]: it starts at or after the end of [m1],
    and after its start. *)
Definition follows (m1 m2 : rmatch) : Prop :=
  m_end m1 <= m_start m2 /\ m_start m1 < m_start m2.

(** The text with its ASCII lowercase letters replaced by the uppercase
    ones, and a section and a standards table so rewritten. *)
Definition ascii_upper (c : N) : N :=
  (if (97 <=? c) && (c <=? 122) then c - 32 else c)%N.

Definition upper_str (s : str) : str := List.map ascii_upper s.

Definition upper_section (sec : Processor.Section_) : Processor.Section_ :=
  {| Processor.sec_type := upper_str (Processor.sec_type sec);
     Processor.sec_content := upper_str (Processor.sec_content sec);
     Processor.sec_position := Processor.sec_position sec;
     Processor.sec_length := Processor.sec_length sec |}.

Definition upper_standards (st : Processor.Standards) : Processor.Standards :=
  {| Processor.areas_of_operation :=
       List.map (fun a => {| Processor.number := upper_str (Processor.number a);
                             Processor.title := upper_str (Processor.title a) |})
                (Processor.areas_of_operation st);
     Processor.tasks :=
       List.map (fun t => {| Processor.code := upper_str (Processor.code t);
                             Processor.task_title := upper_str (Processor.task_title t) |})
                (Processor.tasks st);
     Processor.references := List.map upper_str (Processor.references st);
     Processor.objectives := Processor.objectives st;
     Processor.knowledge_elements := Processor.knowledge_elements st;
     Processor.risk_management := Processor.risk_management st;
     Processor.skill_elements := Processor.skill_elements st |}.

(** The end of every rule with a content group: the rest of the line, as
    group 2. *)
Definition line_tail : pattern :=
  [Mark 2; Many (Class true [CChr 10]) 1 None; Mark 3].

(** The first two rules of [section_patterns]. *)
Definition area_rule : string := "(AREA OF OPERATION\s+[IVXLC]+)\s*[:\-]\s*([^\n]+)".
Definition task_rule : string := "(TASK\s+[A-Z]+)\.\s*([^\n]+)".

(** The last document of [docs] named [n]. *)
Definition last_named (n : str) (docs : list Processor.ProcessedDocument)
    : option Processor.ProcessedDocument :=
  last (List.filter (fun d => bool_decide (Processor.name d = n)) docs).

(** The sanitized name [download_and_verify] makes the file name from. *)
Definition safe_name (py : Builtins) (document : Monitor.ACSDocument) : str :=
  rstrip (List.filter (Monitor.safe_char py) (Monitor.name document)).

End EngineNotions.

(** * Properties *)

(** ** The hash and the pattern compiler on known values *)

Example sha256_constants :
  length SHA256.K = 64 /\ nth 0 SHA256.K 0%Z = 0x428a2f98%Z /\
  nth 63 SHA256.K 0%Z = 0xc67178f2%Z /\
  nth 0 SHA256.H0 0%Z = 0x6a09e667%Z /\ nth 7 SHA256.H0 0%Z = 0x5be0cd19%Z.
Proof. repeat split. Qed.

Example sha256_empty :
  SHA256.hexdigest [] =
  u "e3b0c44298fc1c149afbf4c8996fb92427ae41e4649b934ca495991b7852b855".
Proof. vm_compute. reflexivity. Qed.

Example sha256_abc :
  SHA256.hexdigest (list_byte_of_string "abc") =
  u "ba7816bf8f01cfea414140de5dae2223b00361a396177a9cb410ff61f20015ad".
Proof. vm_compute. reflexivity. Qed.

Example sha256_two_blocks :
  SHA256.hexdigest (repeat "a"%byte 70) =
  u "6bd5e5034855a11241f0dee8fc72850ffd9955b28347a86428b5fa19119f6ad0".
Proof. vm_compute. reflexivity. Qed.

Example body_hash_ok : SHA256.hexdigest Scenario.body = Scenario.body_hash.
Proof. vm_compute. reflexivity. Qed.

(** Every pattern of the program is in the fragment. *)
Lemma patterns_compile :
  Forall (fun p => is_Some (Re.compile p))
         (Processor.section_patterns ++
          Processor.aoo_pattern :: Processor.task_pattern :: Processor.ref_patterns).
Proof. repeat constructor; vm_compute; eauto. Qed.

(** ** The monad *)

Lemma for_each_app {S A B} (body : B -> A -> M S B) (l1 l2 : list A) (acc : B) (s : S) :
  for_each body (l1 ++ l2) acc s =
  let (acc', s') := for_each body l1 acc s in for_each body l2 acc' s'.
Proof.
  revert acc s. induction l1 as [|x l1 IH]; intros acc s; simpl.
  - reflexivity.
  - unfold mbind, M_bind. destruct (body acc x s) as [acc' s']. apply IH.
Qed.

Lemma bind_run {S A B} (m : M S A) (k : A -> M S B) (s : S) :
  (m ≫= k) s = k (fst (m s)) (snd (m s)).
Proof. unfold mbind, M_bind. destruct (m s). reflexivity. Qed.

(** Run the binds at the head of a computation. *)
Ltac run_bind := repeat (rewrite bind_run; cbv beta).

(** ** The sort *)

Section SortFacts.
Context {A : Type} (key : A -> nat).

Lemma insert_by_perm (x : A) (l : list A) : Permutation (insert_by key x l) (x :: l).
Proof.
  induction l as [|y l IH]; simpl.
  - reflexivity.
  - destruct (key x <=? key y).
    + reflexivity.
    + rewrite IH. apply perm_swap.
Qed.

Lemma sort_by_perm (l : list A) : Permutation (sort_by key l) l.
Proof.
  induction l as [|x l IH]; simpl.
  - reflexivity.
  - rewrite insert_by_perm. by constructor.
Qed.

Lemma sort_by_length (l : list A) : length (sort_by key l) = length l.
Proof. apply Permutation_length, sort_by_perm. Qed.

Definition key_le (a b : A) : Prop := key a <= key b.

Lemma insert_by_sorted (x : A) (l : list A) :
  StronglySorted key_le l -> StronglySorted key_le (insert_by key x l).
Proof.
  induction 1 as [|y l Hl IH Hy]; simpl.
  - repeat constructor.
  - destruct (Nat.leb_spec (key x) (key y)) as [Hxy|Hxy].
    + constructor; [by constructor|].
      constructor; [exact Hxy|].
      eapply Forall_impl; [exact Hy|]. intros z Hz. unfold key_le in *. lia.
    + constructor; [exact IH|].
      eapply Permutation_Forall; [symmetry; apply insert_by_perm|].
      constructor; [unfold key_le; lia | exact Hy].
Qed.

Lemma sort_by_sorted (l : list A) : StronglySorted key_le (sort_by key l).
Proof.
  induction l as [|x l IH]; simpl.
  - constructor.
  - by apply insert_by_sorted.
Qed.

End SortFacts.

(** ** The extraction engine *)

Section ProcessorFacts.
Import Processor.
Context (py : Builtins).

(** No pattern of the program matches the empty string, so a scan has
    nothing to try at the end of the text. *)
Lemma patterns_need_a_character :
  Forall (fun p => forall r, Re.compile p = Some r ->
                   forall pos ms, Re.run (re_digit py) r [] pos ms = None)
         (section_patterns ++ aoo_pattern :: task_pattern :: ref_patterns).
Proof.
  repeat constructor; intros r Hr pos ms;
    vm_compute in Hr; injection Hr as <-; reflexivity.
Qed.

Lemma length_flat_map_sum {X Y} (f : X -> list Y) (l : list X) :
  length (flat_map f l) = sum_list (List.map (fun x => length (f x)) l).
Proof.
  induction l as [|x l IH]; simpl.
  - reflexivity.
  - rewrite length_app, IH. reflexivity.
Qed.

(** C7: for every text, [parse_acs_sections] is sorted by ascending offset,
    its length is the sum over the seven rules of the number of matches of
    the rule, and it is a rearrangement of those matches: none is dropped
    and none is merged with another. *)
Theorem parse_acs_sections_sorted_complete (text : str) :
  StronglySorted (key_le sec_position) (parse_acs_sections py text) /\
  length (parse_acs_sections py text) =
    sum_list (List.map (fun pattern => length (finditer py pattern text)) section_patterns) /\
  length section_patterns = 7 /\
  Permutation (parse_acs_sections py text) (matched_sections py text).
Proof.
  unfold parse_acs_sections. split; [apply sort_by_sorted|].
  split; [|split; [reflexivity | apply sort_by_perm]].
  rewrite sort_by_length, length_flat_map_sum.
  f_equal. apply map_ext. intros p. apply length_map.
Qed.

(** C8 (scenario D): on the two-line text the sections are exactly the
    area-of-operation header with content "Airspace" at offset 0 and the task
    header with content "Preflight Prep" at offset 31, and the standards
    table holds the area II "Airspace", the task A "Preflight Prep" and
    nothing else. *)
Theorem scenario_D_sections_and_standards :
  parse_acs_sections py Scenario.scenario_D_text =
    [ {| sec_type := u "AREA OF OPERATION II"; sec_content := u "Airspace";
         sec_position := 0; sec_length := 30 |};
      {| sec_type := u "TASK A"; sec_content := u "Preflight Prep";
         sec_position := 31; sec_length := 22 |} ] /\
  extract_acs_standards py Scenario.scenario_D_text =
    {| areas_of_operation := [ {| number := u "II"; title := u "Airspace" |} ];
       tasks := [ {| code := u "A"; task_title := u "Preflight Prep" |} ];
       references := [];
       objectives := []; knowledge_elements := [];
       risk_management := []; skill_elements := [] |}.
Proof. split; vm_compute; reflexivity. Qed.

Context (be : Backend) (clock : nat -> str) (unwritable : str -> bool).



Lemma write_artifact_run (path : str) (encoded : bool) (doc : ProcessedDocument)
    (w : World) :
  write_artifact unwritable path encoded doc w =
    if unwritable path then (false, w)
    else (encoded,
          {| tick := tick w;
             saved := <[path := if encoded then Whole doc else Part doc]> (saved w);
             processing_summary := processing_summary w |}).
Proof. reflexivity. Qed.

Lemma save_processed_document_ok (doc : ProcessedDocument) (w : World) :
  fst (save_processed_document unwritable doc w) = savable unwritable doc.
Proof.
  unfold save_processed_document, savable. rewrite bind_run, write_artifact_run.
  destruct (unwritable (text_file (name doc))); [reflexivity|]. cbn [fst snd negb andb].
  destruct (encodable (text_content doc)); [|reflexivity]. cbn [andb].
  rewrite bind_run, write_artifact_run.
  destruct (unwritable (md_file (name doc))); [reflexivity|]. cbn [fst snd negb andb].
  destruct (forallb encodable (md_strings doc)); [|reflexivity]. cbn [andb].
  rewrite write_artifact_run.
  destruct (unwritable (metadata_file (name doc))); reflexivity.
Qed.




End ProcessorFacts.

(** ** The change detector *)

Section MonitorFacts.
Import Monitor MonitorNotions.
Context (py : Builtins) (env : Env).

Lemma download_fails (document : ACSDocument) (w : World) :
  fetch_fails env (tick w) (url document) ->
  download_and_verify py env document w = ((false, document), after_call w).
Proof.
  unfold fetch_fails, download_and_verify. rewrite bind_run. unfold ask. simpl.
  destruct (session_get env (tick w) (url document)) as [response|]; [|reflexivity].
  intros ->. reflexivity.
Qed.

(** C5: when the hash of the fetched bytes is the hash the record holds,
    [download_and_verify] answers [changed = false], returns the record as it
    was and leaves the store as it was, whatever the bytes are. *)
Theorem verify_same_hash_unchanged
    (candidate : ACSDocument) (response : GetResponse) (w : World) :
  fetched env (tick w) (url candidate) response ->
  content_hash candidate = Some (SHA256.hexdigest (content response)) ->
  download_and_verify py env candidate w = ((false, candidate), after_call w) /\
  store (snd (download_and_verify py env candidate w)) = store w.
Proof.
  intros [Hget Hok] Hhash.
  assert (download_and_verify py env candidate w = ((false, candidate), after_call w)) as ->.
  { unfold download_and_verify. rewrite bind_run. unfold ask. simpl.
    rewrite Hget, Hok. rewrite decide_True by exact Hhash. reflexivity. }
  split; reflexivity.
Qed.

(** A record without stored hash comes back changed once its bytes are
    fetched and its file can be written. *)
Lemma download_without_hash (document : ACSDocument) (response : GetResponse) (w : World) :
  fetched env (tick w) (url document) response ->
  content_hash document = None ->
  unwritable env (stored_path py document) = false ->
  fst (fst (download_and_verify py env document w)) = true.
Proof.
  intros [Hget Hok] Hnone Hw. unfold stored_path, stored_file in Hw.
  unfold download_and_verify. rewrite bind_run. unfold ask. cbn [fst snd tick].
  rewrite Hget, Hok, Hnone. rewrite decide_False by discriminate. cbv zeta.
  rewrite Hw, bind_run. reflexivity.
Qed.

(** What [download_and_verify] never touches. *)
Lemma download_frame (document : ACSDocument) (w : World) :
  let r := download_and_verify py env document w in
  url (snd (fst r)) = url document /\
  name (snd (fst r)) = name document /\
  known_documents_json (store (snd r)) = known_documents_json (store w) /\
  changes_json (store (snd r)) = changes_json (store w) /\
  last_run_summary_json (store (snd r)) = last_run_summary_json (store w).
Proof.
  unfold download_and_verify. rewrite bind_run. unfold ask. simpl.
  repeat case_match; try rewrite bind_run; simpl; auto.
Qed.

Lemma check_probed (document : ACSDocument) (h : HeadResponse) (size : option Z) (w : World) :
  probed py env (tick w) document h size ->
  check_document_changes py env document w =
    let updated_doc := updated_doc_of document h size (clock env (S (tick w))) in
    if headers_changed document (Last_Modified h) (ETag h) size
    then download_and_verify py env updated_doc (after_call (after_call w))
    else ((false, updated_doc), after_call (after_call w)).
Proof.
  intros (Hhead & Hstatus & Hsize).
  unfold check_document_changes. rewrite bind_run. unfold ask at 1 2. simpl.
  rewrite Hhead. rewrite decide_False by (intros Hne; by apply Hne).
  rewrite Hsize. rewrite bind_run. simpl.
  destruct (headers_changed document (Last_Modified h) (ETag h) size); reflexivity.
Qed.

Lemma check_not_probed (document : ACSDocument) (w : World) :
  (forall h size, ~ probed py env (tick w) document h size) ->
  check_document_changes py env document w = ((false, document), after_call w).
Proof.
  intros Hnot.
  unfold check_document_changes. rewrite bind_run. unfold ask at 1 2. simpl.
  destruct (session_head env (tick w) (url document)) as [h|] eqn:Hhead; [|reflexivity].
  case_decide as Hstatus; [reflexivity|].
  destruct (header_file_size py (Content_Length h)) as [size|] eqn:Hsize; [|reflexivity].
  exfalso. apply (Hnot h size). repeat split; [exact Hhead | exact Hstatus | exact Hsize].
Qed.

Lemma probed_dec (document : ACSDocument) (w : World) :
  (exists h size, probed py env (tick w) document h size) \/
  (forall h size, ~ probed py env (tick w) document h size).
Proof.
  unfold probed.
  destruct (session_head env (tick w) (url document)) as [h|]; [|right; intros ? ? (? & _); done].
  destruct (decide (status_code h = 200%Z)) as [Hs|Hs];
    [|right; intros ? ? (Hh & ? & _); congruence].
  destruct (header_file_size py (Content_Length h)) as [size|] eqn:Hsize;
    [|right; intros ? ? (Hh & ? & ?); congruence].
  left. eauto.
Qed.

Lemma check_frame (document : ACSDocument) (w : World) :
  let r := check_document_changes py env document w in
  url (snd (fst r)) = url document /\
  name (snd (fst r)) = name document /\
  known_documents_json (store (snd r)) = known_documents_json (store w) /\
  changes_json (store (snd r)) = changes_json (store w) /\
  last_run_summary_json (store (snd r)) = last_run_summary_json (store w).
Proof.
  destruct (probed_dec document w) as [(h & size & Hp)|Hnp].
  - rewrite (check_probed _ _ _ _ Hp). cbv zeta.
    destruct (headers_changed _ _ _ _).
    + apply (download_frame (updated_doc_of document h size (clock env (S (tick w))))
                            (after_call (after_call w))).
    + simpl. tauto.
  - rewrite (check_not_probed _ _ Hnp). simpl. tauto.
Qed.

(** C6: the decision depends on the three stored and the three live
    signals only; it is [NoChange] exactly when the last-modified token, the
    entity-tag and the size are each equal, absent counting as a value of its
    own, and [Escalate] as soon as one of them differs. After an answered
    probe the check follows the decision: on [NoChange] it returns without
    fetching, on [Escalate] it goes on to [download_and_verify]. *)
Theorem evaluate_no_change_iff_signals_equal
    (known : ACSDocument) (lastModified etag_ : option str) (size : option Z) :
  (evaluate known lastModified etag_ size = NoChange <->
     last_modified known = lastModified /\ etag known = etag_ /\ file_size known = size) /\
  (evaluate known lastModified etag_ size = Escalate <->
     last_modified known <> lastModified \/ etag known <> etag_ \/ file_size known <> size) /\
  (forall other : ACSDocument,
     evaluate known lastModified etag_ size =
     evaluate {| name := name other; url := url other;
                 last_modified := last_modified known; etag := etag known;
                 content_hash := content_hash other; file_size := file_size known;
                 local_path := local_path other; last_checked := last_checked other |}
              lastModified etag_ size) /\
  (forall (h : HeadResponse) (w : World),
     probed py env (tick w) known h size ->
     check_document_changes py env known w =
       let updated_doc := updated_doc_of known h size (clock env (S (tick w))) in
       match evaluate known (Last_Modified h) (ETag h) size with
       | NoChange => ((false, updated_doc), after_call (after_call w))
       | Escalate => download_and_verify py env updated_doc (after_call (after_call w))
       end).
Proof.
  split; [|split; [|split]].
  - unfold evaluate, headers_changed.
    repeat case_decide; split; intros; try discriminate; try tauto; auto.
  - unfold evaluate, headers_changed.
    repeat case_decide; split; intros; try discriminate; try tauto; auto.
  - intros other. reflexivity.
  - intros h w Hp. rewrite (check_probed _ _ _ _ Hp). cbv zeta.
    unfold evaluate. destruct (headers_changed _ _ _ _); reflexivity.
Qed.

(** *** The registry index *)

Lemma index_fold_sound (docs : list ACSDocument) (m : gmap str ACSDocument) :
  (forall u_ k, m !! u_ = Some k -> url k = u_) ->
  forall u_ k, foldl (fun m doc => <[url doc := doc]> m) m docs !! u_ = Some k -> url k = u_.
Proof.
  revert m. induction docs as [|d docs IH]; intros m Hm; simpl; [exact Hm|].
  apply IH. intros u_ k. rewrite lookup_insert. case_decide as Hu.
  - intros [= <-]. exact Hu.
  - apply Hm.
Qed.

Lemma index_by_url_sound (docs : list ACSDocument) (u_ : str) (k : ACSDocument) :
  index_by_url docs !! u_ = Some k -> url k = u_.
Proof. apply index_fold_sound. intros ? ?. by rewrite lookup_empty. Qed.

Lemma index_fold_fresh (docs : list ACSDocument) (m : gmap str ACSDocument) (u_ : str) :
  m !! u_ = None -> ~ In u_ (List.map url docs) ->
  foldl (fun m doc => <[url doc := doc]> m) m docs !! u_ = None.
Proof.
  revert m. induction docs as [|d docs IH]; intros m Hm Hnot; simpl; [exact Hm|].
  apply IH.
  - rewrite lookup_insert_ne; [exact Hm|]. intros Heq. apply Hnot. left. exact Heq.
  - intros Hin. apply Hnot. right. exact Hin.
Qed.

Lemma index_by_url_fresh (docs : list ACSDocument) (u_ : str) :
  ~ In u_ (List.map url docs) -> index_by_url docs !! u_ = None.
Proof. apply index_fold_fresh, lookup_empty. Qed.

(** *** The loop of [monitor] *)

Lemma monitor_step_spec (K : gmap str ACSDocument)
    (cs : list ChangeEvent) (ds : list ACSDocument) (doc : ACSDocument) (w : World) :
  (forall u_ k, K !! u_ = Some k -> url k = u_) ->
  exists evs d w',
    monitor_step py env K (cs, ds) doc w = ((cs ++ evs, ds ++ [d]), w') /\
    url d = url doc /\
    changes_json (store w') = changes_json (store w) /\
    (K !! url doc = None ->
       (exists t, evs = [new_event d t]) /\
       (fetch_fails env (tick w) (url doc) -> d = doc)).
Proof.
  intros HK. unfold monitor_step.
  destruct (K !! url doc) as [known|] eqn:Hlook.
  - rewrite bind_run.
    pose proof (check_frame known w) as (Hurl & _ & _ & Hlog & _).
    destruct (check_document_changes py env known w) as [[changed upd] w1].
    simpl in *. rewrite bind_run.
    destruct changed.
    + rewrite bind_run. simpl.
      eexists [_], upd, _. split; [reflexivity|].
      split; [by rewrite Hurl; apply HK|]. split; [exact Hlog | done].
    + simpl. exists [], upd, w1. rewrite app_nil_r.
      split; [reflexivity|].
      split; [by rewrite Hurl; apply HK|]. split; [exact Hlog | done].
  - rewrite bind_run.
    pose proof (download_frame doc w) as (Hurl & _ & _ & Hlog & _).
    pose proof (download_fails doc w) as Hfail.
    destruct (download_and_verify py env doc w) as [[changed d] w1].
    simpl in *. rewrite bind_run. simpl.
    eexists [_], d, _. split; [reflexivity|].
    split; [exact Hurl|]. split; [exact Hlog|].
    intros _. split; [eexists; reflexivity|].
    intros Hf. specialize (Hfail Hf). congruence.
Qed.

Lemma monitor_loop_spec (K : gmap str ACSDocument) (docs : list ACSDocument)
    (cs : list ChangeEvent) (ds : list ACSDocument) (w : World) :
  (forall u_ k, K !! u_ = Some k -> url k = u_) ->
  exists evs ds' w',
    for_each (monitor_step py env K) docs (cs, ds) w = ((cs ++ evs, ds ++ ds'), w') /\
    List.map url ds' = List.map url docs /\
    changes_json (store w') = changes_json (store w).
Proof.
  intros HK. revert cs ds w.
  induction docs as [|doc docs IH]; intros cs ds w; cbn [for_each].
  - exists [], [], w. rewrite !app_nil_r. repeat split; try done.
  - rewrite bind_run.
    destruct (monitor_step_spec K cs ds doc w HK) as (evs & d & w1 & Hstep & Hurl & Hlog & _).
    rewrite Hstep. simpl.
    destruct (IH (cs ++ evs) (ds ++ [d]) w1) as (evs' & ds' & w2 & Hloop & Hurls & Hlog').
    exists (evs ++ evs'), (d :: ds'), w2.
    split; [rewrite Hloop, <- !app_assoc; reflexivity|].
    split; [simpl; congruence | congruence].
Qed.

(** *** Discovery *)

Lemma discover_loop_spec (links : list (str * str)) (acc : list ACSDocument) (w : World) :
  exists docs,
    fst (for_each (fun documents link =>
                     t ← now env; mret (documents ++ [discovered_document link t]))
                  links acc w) = acc ++ docs /\
    Forall2 (fun link d => exists t, d = discovered_document link t) links docs /\
    store (snd (for_each (fun documents link =>
                     t ← now env; mret (documents ++ [discovered_document link t]))
                  links acc w)) = store w.
Proof.
  revert acc w. induction links as [|link links IH]; intros acc w; simpl.
  - exists []. rewrite app_nil_r. repeat split. constructor.
  - rewrite !bind_run. simpl.
    destruct (IH (acc ++ [discovered_document link (clock env (tick w))])
                 {| tick := S (tick w); store := store w |}) as (docs & Hdocs & Hall & Hstore).
    exists (discovered_document link (clock env (tick w)) :: docs).
    rewrite Hdocs, <- app_assoc. split; [reflexivity|].
    split; [constructor; eauto | exact Hstore].
Qed.

Lemma discover_spec (w : World) :
  Forall2 (fun link d => exists t, d = discovered_document link t)
          (links_at env (tick w)) (fst (discover_acs_documents env w)) /\
  store (snd (discover_acs_documents env w)) = store w.
Proof.
  unfold discover_acs_documents, links_at. rewrite bind_run. unfold ask at 1 2. simpl.
  destruct (acs_links env (tick w)) as [links|]; simpl; [|split; [constructor | reflexivity]].
  destruct (discover_loop_spec links [] {| tick := S (tick w); store := store w |})
    as (docs & Hdocs & Hall & Hstore).
  simpl in Hdocs. rewrite Hdocs. split; [exact Hall | exact Hstore].
Qed.

Lemma discovered_urls (links : list (str * str)) (docs : list ACSDocument) :
  Forall2 (fun link d => exists t, d = discovered_document link t) links docs ->
  List.map url docs = List.map snd links.
Proof.
  induction 1 as [|link d links docs [t ->] _ IH]; simpl; [reflexivity|].
  f_equal. exact IH.
Qed.

(** *** A whole run *)

Lemma monitor_run (w : World) :
  let cs := fst (fst (run_loop py env w)) in
  let ds := snd (fst (run_loop py env w)) in
  let w1 := snd (run_loop py env w) in
  store (snd (monitor py env w)) =
    {| acs_documents := acs_documents (store w1);
       known_documents_json := Records ds;
       changes_json := match cs with [] => changes_json (store w1) | _ :: _ => Some cs end;
       last_run_summary_json :=
         Some {| sum_timestamp := clock env (tick w1);
                 total_documents := length ds;
                 changes_detected := length cs;
                 changes := cs |} |}.
Proof.
  unfold run_loop, monitor. rewrite bind_run.
  assert (Hload : load_known_documents w = (fst (load_known_documents w), w)).
  { unfold load_known_documents. rewrite bind_run. unfold get. simpl.
    destruct (known_documents_json (store w)); reflexivity. }
  rewrite Hload at 1 2. cbn [fst snd]. rewrite bind_run. rewrite bind_run.
  destruct (for_each _ _ _ _) as [[cs ds] w1]. cbn [fst snd].
  rewrite !bind_run. destruct cs; reflexivity.
Qed.

Lemma run_loop_spec (w : World) :
  exists evs ds w1,
    run_loop py env w = ((evs, ds), w1) /\
    List.map url ds = List.map snd (links_at env (tick w)) /\
    changes_json (store w1) = changes_json (store w).
Proof.
  unfold run_loop.
  destruct (discover_spec w) as [Hdisc Hstore].
  destruct (monitor_loop_spec (index_by_url (fst (load_known_documents w)))
              (fst (discover_acs_documents env w)) [] []
              (snd (discover_acs_documents env w)))
    as (evs & ds & w1 & Hloop & Hurls & Hlog).
  { intros u_ k. apply index_by_url_sound. }
  exists evs, ds, w1. split; [exact Hloop|].
  split; [rewrite Hurls; by apply discovered_urls|].
  by rewrite Hlog, Hstore.
Qed.

(** C3, as the code has it: the registry saved by a run holds one record
    per document discovered in this run, in discovery order and under the
    same URLs; so every URL of the loaded registry that the run discovers
    again is still present in the saved registry. *)
Theorem saved_registry_is_discovered_documents (w : World) :
  let w' := snd (monitor py env w) in
  let saved := fst (load_known_documents w') in
  known_documents_json (store w') = Records saved /\
  List.map url saved = List.map snd (links_at env (tick w)) /\
  (forall u_, In u_ (List.map url (fst (load_known_documents w))) ->
              In u_ (List.map snd (links_at env (tick w))) ->
              In u_ (List.map url saved)).
Proof.
  cbv zeta.
  destruct (run_loop_spec w) as (evs & ds & w1 & Hrun & Hurls & _).
  pose proof (monitor_run w) as Hstore. cbv zeta in Hstore. rewrite Hrun in Hstore.
  assert (Hsaved : fst (load_known_documents (snd (monitor py env w))) = ds).
  { unfold load_known_documents. rewrite bind_run. unfold get. cbn [fst snd].
    rewrite Hstore. reflexivity. }
  rewrite Hsaved, Hstore. cbn [known_documents_json fst snd].
  split; [reflexivity|]. split; [exact Hurls|].
  intros u_ _ Hin. rewrite Hurls. exact Hin.
Qed.

(** C4, as the code has it: a run that detects at least one change
    overwrites the change log with exactly its own events; a run that
    detects none leaves the change log as it found it. The events of the run
    are those of its summary. *)
Theorem change_log_written_only_on_change (w : World) :
  let w' := snd (monitor py env w) in
  exists s,
    last_run_summary_json (store w') = Some s /\
    changes s = fst (fst (run_loop py env w)) /\
    changes_detected s = length (changes s) /\
    changes_json (store w') =
      match changes s with
      | [] => changes_json (store w)
      | _ :: _ => Some (changes s)
      end.
Proof.
  cbv zeta.
  destruct (run_loop_spec w) as (evs & ds & w1 & Hrun & _ & Hlog).
  pose proof (monitor_run w) as Hstore. cbv zeta in Hstore. rewrite Hrun in Hstore.
  rewrite Hstore, Hrun. cbn [fst snd] in *.
  eexists. split; [reflexivity|]. cbn [changes changes_detected changes_json].
  repeat split. destruct evs; [exact Hlog | reflexivity].
Qed.

Lemma run_turn_new (w : World) (i : nat) (link : str * str) :
  links_at env (tick w) !! i = Some link ->
  ~ In (snd link) (List.map url (fst (load_known_documents w))) ->
  fetch_fails env (tick (turn_state py env i w)) (snd link) ->
  exists t_seen t_event,
    In (discovered_document link t_seen) (snd (fst (run_loop py env w))) /\
    In (new_event (discovered_document link t_seen) t_event) (fst (fst (run_loop py env w))).
Proof.
  intros Hi Hfresh Hfails.
  destruct (discover_spec w) as [Hdisc _].
  destruct (Forall2_lookup_l _ _ _ i link Hdisc Hi) as (doc & Hdoc & t_seen & ->).
  unfold turn_state in Hfails. unfold run_loop.
  set (K := index_by_url (fst (load_known_documents w))) in *.
  assert (HK : forall u_ k, K !! u_ = Some k -> url k = u_).
  { intros u_ k. apply index_by_url_sound. }
  rewrite <- (take_drop_middle _ i _ Hdoc), for_each_app.
  change (take i (fst (discover_acs_documents env w)))
    with (firstn i (fst (discover_acs_documents env w))).
  destruct (for_each (monitor_step py env K) (firstn i (fst (discover_acs_documents env w)))
              ([], []) (snd (discover_acs_documents env w))) as [[cs ds] w1].
  cbn [snd] in Hfails. cbn [for_each]. rewrite bind_run.
  destruct (monitor_step_spec K cs ds (discovered_document link t_seen) w1 HK)
    as (evs & d & w2 & Hstep & _ & _ & Hnew).
  destruct Hnew as [[t_event ->] Hsame]; [by apply index_by_url_fresh|].
  rewrite (Hsame Hfails) in Hstep. rewrite Hstep. cbn [fst snd].
  destruct (monitor_loop_spec K (drop (S i) (fst (discover_acs_documents env w)))
              (cs ++ [new_event d t_event]) (ds ++ [discovered_document link t_seen]) w2 HK)
    as (evs' & ds' & w3 & Hloop & _).
  rewrite (Hsame Hfails) in Hloop. rewrite Hloop. cbn [fst snd].
  exists t_seen, t_event. split; apply in_or_app; left; apply in_or_app; right; by left.
Qed.

(** C10: when the [i]-th discovered document has no record under its URL
    and the fetch of its body, the request the run makes when the turn of
    this document begins, fails, the run still completes, its change log
    holds an event of kind [new] for the document, and the saved registry
    holds its record, with content hash and local path absent. Nothing is
    asked of the requests made at other times. *)
Theorem new_document_recorded_when_fetch_fails (w : World) (i : nat) (link : str * str) :
  links_at env (tick w) !! i = Some link ->
  ~ In (snd link) (List.map url (fst (load_known_documents w))) ->
  fetch_fails env (tick (turn_state py env i w)) (snd link) ->
  let w' := snd (monitor py env w) in
  exists t_seen t_event log s,
    let record := discovered_document link t_seen in
    name record = fst link /\ url record = snd link /\
    content_hash record = None /\ local_path record = None /\
    In record (fst (load_known_documents w')) /\
    changes_json (store w') = Some log /\
    In (new_event record t_event) log /\
    last_run_summary_json (store w') = Some s /\
    total_documents s = length (links_at env (tick w)).
Proof.
  intros Hi Hfresh Hfails. cbv zeta.
  destruct (run_turn_new w i link Hi Hfresh Hfails) as (t_seen & t_event & Hds & Hevs).
  destruct (run_loop_spec w) as (evs & ds & w1 & Hrun & Hurls & _).
  rewrite Hrun in Hds, Hevs. cbn [fst snd] in Hds, Hevs.
  pose proof (monitor_run w) as Hstore. cbv zeta in Hstore. rewrite Hrun in Hstore.
  cbn [fst snd] in Hstore.
  assert (Hsaved : fst (load_known_documents (snd (monitor py env w))) = ds).
  { unfold load_known_documents. rewrite bind_run. unfold get. cbn [fst snd].
    rewrite Hstore. reflexivity. }
  rewrite Hsaved, Hstore. cbn [changes_json last_run_summary_json].
  exists t_seen, t_event, evs. eexists.
  repeat split; try reflexivity; try assumption.
  - destruct evs; [destruct Hevs | reflexivity].
  - cbn [total_documents]. rewrite <- (length_map url ds), Hurls. apply length_map.
Qed.

(** *** The defect of the escalation path *)

(** An escalated check whose fetch succeeds and whose file can be written
    always reports a change: the record handed to [download_and_verify]
    holds no hash to compare with. *)
Lemma escalation_reports_changed
    (document : ACSDocument) (h : HeadResponse) (size : option Z)
    (response : GetResponse) (w : World) :
  probed py env (tick w) document h size ->
  evaluate document (Last_Modified h) (ETag h) size = Escalate ->
  fetched env (S (S (tick w))) (url document) response ->
  unwritable env (stored_path py document) = false ->
  fst (fst (check_document_changes py env document w)) = true.
Proof.
  intros Hp He Hf Hw. rewrite (check_probed _ _ _ _ Hp). cbv zeta.
  unfold evaluate in He. destruct (headers_changed _ _ _ _); [|discriminate].
  by apply (download_without_hash _ response).
Qed.

(** A check that finds the three signals equal returns a record without
    the stored hash and local path. *)
Lemma no_change_forgets_hash_and_path
    (document : ACSDocument) (h : HeadResponse) (size : option Z) (w : World) :
  probed py env (tick w) document h size ->
  evaluate document (Last_Modified h) (ETag h) size = NoChange ->
  check_document_changes py env document w =
    ((false, updated_doc_of document h size (clock env (S (tick w)))),
     after_call (after_call w)).
Proof.
  intros Hp He. rewrite (check_probed _ _ _ _ Hp). cbv zeta.
  unfold evaluate in He. destruct (headers_changed _ _ _ _); [discriminate | reflexivity].
Qed.

End MonitorFacts.

(** ** The scenarios *)

Section Scenarios.
Import Monitor Scenario.

Example empty_hash_ok : SHA256.hexdigest [] = empty_hash.
Proof. vm_compute. reflexivity. Qed.

(** C1 (scenario B) on the code: the tracked document stores the hash of
    [body]; the live entity-tag differs, so the check escalates; the bytes
    fetched are [body] again, yet the check answers [changed = true], writes
    the file and returns a record carrying the live entity-tag. *)
Theorem scenario_B_reports_changed :
  let w := world (Records [known]) None in
  let r := check_document_changes ascii_builtins (server "E2" body) known w in
  content_hash known = Some (SHA256.hexdigest body) /\
  evaluate known (Some (u "T1")) (Some (u "E2")) (Some 100%Z) = Escalate /\
  fst r =
    (true,
     {| name := name known; url := url known;
        last_modified := Some (u "T1"); etag := Some (u "E2");
        content_hash := Some body_hash; file_size := Some 100%Z;
        local_path := Some (u "data/acs-documents/Private Pilot ACS.pdf");
        last_checked := Some (stamp 1) |}) /\
  acs_documents (store (snd r)) !! u "data/acs-documents/Private Pilot ACS.pdf" = Some body.
Proof. cbv zeta. repeat split; vm_compute; reflexivity. Qed.

(** C2 (scenario A) on the code: the three live signals equal the stored
    ones and the check answers [changed = false], but the record it returns
    has lost the stored content hash and local path. *)
Theorem scenario_A_forgets_hash_and_path :
  let w := world (Records [known]) None in
  let r := check_document_changes ascii_builtins (server "E1" body) known w in
  evaluate known (Some (u "T1")) (Some (u "E1")) (Some 100%Z) = NoChange /\
  content_hash known = Some body_hash /\
  local_path known = Some (u "data/acs-documents/Private Pilot ACS.pdf") /\
  fst r =
    (false,
     {| name := name known; url := url known;
        last_modified := last_modified known; etag := etag known;
        content_hash := None; file_size := file_size known;
        local_path := None;
        last_checked := Some (stamp 1) |}) /\
  store (snd r) = store w.
Proof. cbv zeta. repeat split; vm_compute; reflexivity. Qed.

(** C3 fails as stated: the registry holds the tracked document, the page
    lists another document only, and the registry saved by the run no longer
    holds the URL of the tracked document. *)
Lemma registry_drops_undiscovered_document :
  let w := world (Records [known]) None in
  let w' := snd (monitor ascii_builtins (unreachable [other_link]) w) in
  In (url known) (List.map url (fst (load_known_documents w))) /\
  List.map url (fst (load_known_documents w')) = [snd other_link] /\
  ~ In (url known) (List.map url (fst (load_known_documents w'))).
Proof.
  cbv zeta. split; [left; reflexivity|].
  assert (H : List.map url (fst (load_known_documents
                (snd (monitor ascii_builtins (unreachable [other_link])
                        (world (Records [known]) None))))) = [snd other_link])
    by (vm_compute; reflexivity).
  rewrite H. split; [reflexivity|].
  intros [Heq|[]]. vm_compute in Heq. discriminate Heq.
Qed.

(** C4 fails as stated: the change log holds an entry of a run before, the
    run detects no change, and the change log still holds that entry. *)
Lemma change_log_keeps_stale_entries :
  let w := world (Records [known]) (Some [stale_event]) in
  let w' := snd (monitor ascii_builtins (server "E1" body) w) in
  changes <$> last_run_summary_json (store w') = Some [] /\
  changes_json (store w') = Some [stale_event].
Proof. cbv zeta. split; vm_compute; reflexivity. Qed.

(** C5 at the empty payload. *)
Lemma verify_same_hash_unchanged_witness :
  let w := world (Records [known_empty]) None in
  download_and_verify ascii_builtins (server "E2" []) known_empty w
    = ((false, known_empty), after_call w) /\
  store (snd (download_and_verify ascii_builtins (server "E2" []) known_empty w)) = store w.
Proof.
  cbv zeta.
  apply (verify_same_hash_unchanged ascii_builtins (server "E2" []) known_empty
           {| get_status_code := 200; content := [] |}).
  - split; reflexivity.
  - vm_compute. reflexivity.
Defined.

(** C10 for a page that lists an unknown document on a server that fails
    the one request for its body and answers at every other time. *)
Lemma new_document_recorded_when_fetch_fails_witness :
  let w := world (Records [known]) None in
  let w' := snd (monitor ascii_builtins flaky w) in
  exists t_seen t_event log s,
    let record := discovered_document other_link t_seen in
    name record = fst other_link /\ url record = snd other_link /\
    content_hash record = None /\ local_path record = None /\
    In record (fst (load_known_documents w')) /\
    changes_json (store w') = Some log /\
    In (new_event record t_event) log /\
    last_run_summary_json (store w') = Some s /\
    total_documents s = 1.
Proof.
  cbv zeta.
  apply (new_document_recorded_when_fetch_fails ascii_builtins flaky
           (world (Records [known]) None) 0 other_link).
  - reflexivity.
  - intros [Heq|[]]. vm_compute in Heq. discriminate Heq.
  - vm_compute. exact I.
Defined.


End Scenarios.

(** ** Further properties of the change detector *)

Section MonitorMore.
Import Monitor MonitorNotions.
Context (py : Builtins) (env : Env).

(** The unchanged branch of [download_and_verify], for the proofs below. *)
Lemma verify_same_hash_unchanged_aux
    (candidate : ACSDocument) (response : GetResponse) (w : World) :
  fetched env (tick w) (url candidate) response ->
  content_hash candidate = Some (SHA256.hexdigest (content response)) ->
  download_and_verify py env candidate w = ((false, candidate), after_call w) /\
  store (snd (download_and_verify py env candidate w)) = store w.
Proof.
  intros [Hget Hok] Hhash.
  assert (download_and_verify py env candidate w = ((false, candidate), after_call w)) as ->.
  { unfold download_and_verify. rewrite bind_run. unfold ask. simpl.
    rewrite Hget, Hok. rewrite decide_True by exact Hhash. reflexivity. }
  split; reflexivity.
Qed.


(** X1: a body fetch that fails (the request raises, or the answer is a 4xx
    or 5xx) makes [download_and_verify] answer [changed = false] with the
    record it was given and leaves every file as it was. *)
Theorem failed_fetch_changes_nothing (document : ACSDocument) (w : World) :
  fetch_fails env (tick w) (url document) ->
  fst (download_and_verify py env document w) = (false, document) /\
  store (snd (download_and_verify py env document w)) = store w.
Proof. intros Hf. rewrite (download_fails py env document w Hf). split; reflexivity. Qed.

Lemma download_refused (document : ACSDocument) (response : GetResponse) (w : World) :
  fetched env (tick w) (url document) response ->
  unwritable env (stored_path py document) = true ->
  download_and_verify py env document w = ((false, document), after_call w).
Proof.
  intros [Hget Hok] Hw. unfold stored_path, stored_file in Hw.
  unfold download_and_verify. rewrite bind_run. unfold ask. cbn [fst snd tick].
  rewrite Hget, Hok. cbv zeta. rewrite Hw. by case_decide.
Qed.

Lemma download_changed (document : ACSDocument) (response : GetResponse) (w : World) :
  fetched env (tick w) (url document) response ->
  content_hash document <> Some (SHA256.hexdigest (content response)) ->
  unwritable env (stored_path py document) = false ->
  download_and_verify py env document w =
    ((true,
      {| name := name document; url := url document;
         last_modified := last_modified document; etag := etag document;
         content_hash := Some (SHA256.hexdigest (content response));
         file_size := file_size document;
         local_path := Some (stored_path py document);
         last_checked := last_checked document |}),
     {| tick := S (tick w);
        store := {| acs_documents :=
                      <[stored_path py document := content response]>
                        (acs_documents (store w));
                    known_documents_json := known_documents_json (store w);
                    changes_json := changes_json (store w);
                    last_run_summary_json := last_run_summary_json (store w) |} |}).
Proof.
  intros [Hget Hok] Hne Hw. unfold stored_path, stored_file in Hw.
  unfold download_and_verify. rewrite bind_run. unfold ask. cbn [fst snd tick].
  rewrite Hget, Hok. rewrite decide_False by exact Hne. cbv zeta.
  rewrite Hw, bind_run. reflexivity.
Qed.

(** X2: when the bytes fetched do not hash to the stored hash (in
    particular when no hash is stored) and the path made of the sanitized
    name can be written, [download_and_verify] answers [changed = true],
    writes exactly these bytes to that path, touches no other file, and
    returns the record with the new hash and that path and every other field
    as given. When the path cannot be written, it answers [changed = false]
    with the record it was given and leaves every file as it was. *)
Theorem changed_content_is_stored
    (document : ACSDocument) (response : GetResponse) (w : World) :
  fetched env (tick w) (url document) response ->
  content_hash document <> Some (SHA256.hexdigest (content response)) ->
  let r := download_and_verify py env document w in
  let d := snd (fst r) in
  if unwritable env (stored_path py document)
  then r = ((false, document), after_call w)
  else
    fst (fst r) = true /\
    content_hash d = Some (SHA256.hexdigest (content response)) /\
    local_path d = Some (stored_path py document) /\
    (name d, url d, last_modified d, etag d, file_size d, last_checked d) =
      (name document, url document, last_modified document, etag document,
       file_size document, last_checked document) /\
    acs_documents (store (snd r)) !! stored_path py document = Some (content response) /\
    (forall path, path <> stored_path py document ->
       acs_documents (store (snd r)) !! path = acs_documents (store w) !! path) /\
    known_documents_json (store (snd r)) = known_documents_json (store w) /\
    changes_json (store (snd r)) = changes_json (store w).
Proof.
  intros Hf Hne. cbv zeta.
  destruct (unwritable env (stored_path py document)) eqn:Hw.
  - by apply (download_refused _ response).
  - rewrite (download_changed _ _ _ Hf Hne Hw). simpl.
    repeat split.
    + apply lookup_insert_eq.
    + intros path Hp. by apply lookup_insert_ne.
Qed.

Lemma lstrip_incl (s : str) (c : N) : In c (lstrip s) -> In c s.
Proof.
  induction s as [|x s IH]; simpl; [done|].
  destruct (isspace x); [intros H; right; by apply IH | done].
Qed.

Lemma rstrip_incl (s : str) (c : N) : In c (rstrip s) -> In c s.
Proof.
  unfold rstrip. rewrite <- in_rev. intros H. apply lstrip_incl in H.
  by rewrite <- in_rev in H.
Qed.

Lemma stored_file_chars (document : ACSDocument) (c : N) :
  In c (stored_file py document) -> safe_char py c = true \/ In c (u ".pdf").
Proof.
  unfold stored_file. intros Hin. apply in_app_or in Hin as [Hin|Hin]; [left | by right].
  apply rstrip_incl in Hin. by apply filter_In in Hin as [_ Hsafe].
Qed.

Lemma stored_file_no_slash (document : ACSDocument) :
  str_isalnum py 47 = false -> ~ In 47%N (stored_file py document).
Proof.
  intros Hslash Hin. apply stored_file_chars in Hin as [Hsafe|Hin].
  - unfold safe_char in Hsafe. rewrite Hslash in Hsafe. discriminate Hsafe.
  - vm_compute in Hin. intuition discriminate.
Qed.

Lemma until_stops (c : N) (s rest : str) :
  ~ In c s -> Processor.until c (s ++ c :: rest) = s.
Proof.
  induction s as [|x s IH]; intros Hs; simpl.
  - by rewrite N.eqb_refl.
  - destruct (N.eqb_spec x c) as [->|Hx]; [exfalso; apply Hs; by left|].
    f_equal. apply IH. intros Hin. apply Hs. by right.
Qed.

Lemma split_on_whole (c : N) (s : str) : ~ In c s -> Processor.split_on c s = [s].
Proof.
  induction s as [|x s IH]; intros Hs; simpl; [reflexivity|].
  destruct (N.eqb_spec x c) as [->|Hx]; [exfalso; apply Hs; by left|].
  rewrite IH; [reflexivity|]. intros Hin. apply Hs. by right.
Qed.

Lemma split_on_last (c : N) (s rest : str) :
  exists part parts,
    Processor.split_on c (s ++ c :: rest) = (part :: parts) ++ Processor.split_on c rest.
Proof.
  induction s as [|x s (part & parts & IH)]; simpl.
  - rewrite N.eqb_refl. by exists [], [].
  - destruct (x =? c)%N.
    + exists [], (part :: parts). by rewrite IH.
    + rewrite IH. by exists (x :: part), parts.
Qed.

Lemma stored_path_name (document : ACSDocument) :
  str_isalnum py 47 = false ->
  Processor.path_name (stored_path py document) = stored_file py document.
Proof.
  intros Hslash. pose proof (stored_file_no_slash document Hslash) as Hfile.
  unfold stored_path, Processor.path_name, Processor.path_parts.
  change (u "/" ++ stored_file py document) with (47%N :: stored_file py document).
  destruct (split_on_last 47 docs_dir (stored_file py document)) as (part & parts & ->).
  rewrite (split_on_whole _ _ Hfile), List.filter_app.
  assert (Hpart : Processor.is_part (stored_file py document) = true).
  { unfold stored_file.
    destruct (rstrip (List.filter (safe_char py) (name document))) as [|? [|? ?]]; reflexivity. }
  cbn [List.filter]. rewrite Hpart. by rewrite last_snoc.
Qed.

(** X3: the file a document is stored under lies directly in the documents
    directory: its name holds no path separator, whatever the name of the
    document is (a slash is no alphanumeric character). *)
Theorem stored_path_stays_in_docs_dir (document : ACSDocument) :
  str_isalnum py 47 = false ->
  stored_path py document = docs_dir ++ u "/" ++ stored_file py document /\
  ~ In 47%N (stored_file py document) /\
  Processor.path_name (stored_path py document) = stored_file py document.
Proof.
  intros Hslash. split; [reflexivity|].
  split; [by apply stored_file_no_slash | by apply stored_path_name].
Qed.

(** X4: verifying again is idempotent: after any answer of
    [download_and_verify], a second call on the record it returned that
    fetches the same bytes answers [changed = false], returns that record and
    writes nothing. *)
Theorem verification_is_idempotent
    (document : ACSDocument) (response response' : GetResponse) (w : World) :
  fetched env (tick w) (url document) response ->
  let r := download_and_verify py env document w in
  fetched env (tick (snd r)) (url document) response' ->
  content response' = content response ->
  download_and_verify py env (snd (fst r)) (snd r) =
    ((false, snd (fst r)), after_call (snd r)).
Proof.
  intros Hf. cbv zeta.
  destruct (decide (content_hash document = Some (SHA256.hexdigest (content response))))
    as [Heq|Hne].
  - destruct (verify_same_hash_unchanged_aux document response w Hf Heq) as [-> ?].
    simpl. intros Hf' Hc.
    apply verify_same_hash_unchanged_aux with (response := response'); [exact Hf'|].
    by rewrite Hc.
  - destruct (unwritable env (stored_path py document)) eqn:Hw.
    + rewrite (download_refused _ _ _ Hf Hw). simpl. intros Hf' _.
      by apply (download_refused _ response').
    + rewrite (download_changed _ _ _ Hf Hne Hw). simpl. intros Hf' Hc.
      match goal with |- download_and_verify py env ?d ?w1 = _ =>
        apply (verify_same_hash_unchanged_aux d response' w1) end.
      * exact Hf'.
      * simpl. by rewrite Hc.
Qed.

(** X5: a probe that fails (the HEAD request raises, its status is not
    200, or its Content-Length is no integer) makes the check answer
    [changed = false] with the known record itself, after that one request
    and without touching any file. *)
Theorem failed_probe_changes_nothing (document : ACSDocument) (w : World) :
  (session_head env (tick w) (url document) = None \/
   exists h, session_head env (tick w) (url document) = Some h /\
             (status_code h <> 200%Z \/
              header_file_size py (Content_Length h) = None)) ->
  check_document_changes py env document w = ((false, document), after_call w).
Proof.
  intros Hfail. apply check_not_probed. intros h size (Hh & Hs & Hsize).
  destruct Hfail as [Hnone|(h' & Hh' & [Hs'|Hsize'])]; congruence.
Qed.

(** X6: whatever the server answers, the record a check returns has the
    name and the URL of the record checked, and the check leaves the
    registry file, the change log and the run summary as they were. *)
Theorem check_keeps_identity (document : ACSDocument) (w : World) :
  let r := check_document_changes py env document w in
  url (snd (fst r)) = url document /\
  name (snd (fst r)) = name document /\
  known_documents_json (store (snd r)) = known_documents_json (store w) /\
  changes_json (store (snd r)) = changes_json (store w) /\
  last_run_summary_json (store (snd r)) = last_run_summary_json (store w).
Proof. apply check_frame. Qed.

(** *** The events of a run *)

Lemma download_cases (document : ACSDocument) (w : World) :
  download_and_verify py env document w = ((false, document), after_call w) \/
  exists response,
    fetched env (tick w) (url document) response /\
    content_hash document <> Some (SHA256.hexdigest (content response)) /\
    unwritable env (stored_path py document) = false.
Proof.
  destruct (session_get env (tick w) (url document)) as [response|] eqn:Hget.
  - destruct ((400 <=? get_status_code response) && (get_status_code response <? 600))%Z
      eqn:Hstatus.
    + left. apply download_fails. unfold fetch_fails. by rewrite Hget.
    + destruct (decide (content_hash document = Some (SHA256.hexdigest (content response))))
        as [Heq|Hne].
      * left. by apply (verify_same_hash_unchanged_aux document response w).
      * destruct (unwritable env (stored_path py document)) eqn:Hw.
        -- left. by apply (download_refused document response).
        -- right. exists response. by repeat split.
  - left. apply download_fails. unfold fetch_fails. by rewrite Hget.
Qed.

Lemma download_keeps_files (document : ACSDocument) (w : World) (path : str) :
  is_Some (acs_documents (store w) !! path) ->
  is_Some (acs_documents (store (snd (download_and_verify py env document w))) !! path).
Proof.
  intros Hpath. destruct (download_cases document w) as [->|(response & Hf & Hne & Hw)].
  - exact Hpath.
  - rewrite (download_changed _ _ _ Hf Hne Hw). cbn [snd store acs_documents].
    rewrite lookup_insert. case_decide; [eauto | exact Hpath].
Qed.

Lemma check_keeps_files (document : ACSDocument) (w : World) (path : str) :
  is_Some (acs_documents (store w) !! path) ->
  is_Some (acs_documents (store (snd (check_document_changes py env document w))) !! path).
Proof.
  intros Hpath.
  destruct (probed_dec py env document w) as [(h & size & Hp)|Hnp].
  - rewrite (check_probed _ _ _ _ _ _ Hp). cbv zeta.
    destruct (headers_changed _ _ _ _); [|exact Hpath].
    by apply download_keeps_files.
  - rewrite (check_not_probed _ _ _ _ Hnp). exact Hpath.
Qed.

Lemma download_true (document : ACSDocument) (w : World) :
  fst (fst (download_and_verify py env document w)) = true ->
  is_Some (content_hash (snd (fst (download_and_verify py env document w)))) /\
  is_Some (local_path (snd (fst (download_and_verify py env document w)))).
Proof.
  destruct (download_cases document w) as [->|(response & Hf & Hne & Hw)].
  - simpl. discriminate.
  - rewrite (download_changed _ _ _ Hf Hne Hw). cbn [fst snd content_hash local_path]. eauto.
Qed.

Lemma check_true (document : ACSDocument) (w : World) :
  fst (fst (check_document_changes py env document w)) = true ->
  is_Some (content_hash (snd (fst (check_document_changes py env document w)))) /\
  is_Some (local_path (snd (fst (check_document_changes py env document w)))).
Proof.
  destruct (probed_dec py env document w) as [(h & size & Hp)|Hnp].
  - rewrite (check_probed _ _ _ _ _ _ Hp). cbv zeta.
    destruct (headers_changed _ _ _ _); [apply download_true | simpl; discriminate].
  - rewrite (check_not_probed _ _ _ _ Hnp). simpl. discriminate.
Qed.

Lemma monitor_step_outcome (K : gmap str ACSDocument)
    (cs : list ChangeEvent) (ds : list ACSDocument) (doc : ACSDocument) (w : World) :
  (forall u_ k, K !! u_ = Some k -> url k = u_) ->
  exists evs d w',
    monitor_step py env K (cs, ds) doc w = ((cs ++ evs, ds ++ [d]), w') /\
    turn_outcome K doc d evs /\
    (forall path, is_Some (acs_documents (store w) !! path) ->
                  is_Some (acs_documents (store w') !! path)).
Proof.
  intros HK. unfold monitor_step, turn_outcome.
  destruct (K !! url doc) as [known|] eqn:Hlook.
  - rewrite bind_run.
    pose proof (check_frame py env known w) as (Hurl & _).
    pose proof (check_true known w) as Htrue.
    pose proof (check_keeps_files known w) as Hkeep.
    destruct (check_document_changes py env known w) as [[changed upd] w1].
    simpl in *. rewrite bind_run.
    destruct changed.
    + rewrite bind_run. simpl.
      eexists [_], upd, _. split; [reflexivity|].
      split; [|exact Hkeep].
      split; [by rewrite Hurl; apply HK|].
      right. split; [eexists; reflexivity | by apply Htrue].
    + simpl. exists [], upd, w1. rewrite app_nil_r.
      split; [reflexivity|]. split; [|exact Hkeep].
      split; [by rewrite Hurl; apply HK | by left].
  - rewrite bind_run.
    pose proof (download_frame py env doc w) as (Hurl & Hname & _).
    pose proof (download_keeps_files doc w) as Hkeep.
    destruct (download_and_verify py env doc w) as [[changed d] w1].
    simpl in *. rewrite bind_run. simpl.
    eexists [_], d, _. split; [reflexivity|].
    split; [|exact Hkeep]. split; [exact Hurl|]. split; [exact Hname|].
    eexists. reflexivity.
Qed.

(** The loop, turn by turn: the records and events each discovered
    document adds. *)
Lemma monitor_loop_outcome (K : gmap str ACSDocument) (docs : list ACSDocument)
    (cs : list ChangeEvent) (ds : list ACSDocument) (w : World) :
  (forall u_ k, K !! u_ = Some k -> url k = u_) ->
  exists (turns : list (ACSDocument * list ChangeEvent)) w',
    for_each (monitor_step py env K) docs (cs, ds) w =
      ((cs ++ concat (List.map snd turns), ds ++ List.map fst turns), w') /\
    Forall2 (fun doc turn => turn_outcome K doc (fst turn) (snd turn)) docs turns /\
    (forall path, is_Some (acs_documents (store w) !! path) ->
                  is_Some (acs_documents (store w') !! path)).
Proof.
  intros HK. revert cs ds w.
  induction docs as [|doc docs IH]; intros cs ds w; cbn [for_each].
  - exists [], w. simpl. rewrite !app_nil_r. repeat split; [constructor | done].
  - rewrite bind_run.
    destruct (monitor_step_outcome K cs ds doc w HK) as (evs & d & w1 & Hstep & Hturn & Hkeep).
    rewrite Hstep. simpl.
    destruct (IH (cs ++ evs) (ds ++ [d]) w1) as (turns & w2 & Hloop & Hall & Hkeep').
    exists ((d, evs) :: turns), w2.
    split; [rewrite Hloop; simpl; rewrite <- !app_assoc; reflexivity|].
    split; [by constructor | auto].
Qed.

Lemma index_fold_is_Some (docs : list ACSDocument) (m : gmap str ACSDocument) (u_ : str) :
  is_Some (foldl (fun m doc => <[url doc := doc]> m) m docs !! u_) <->
  is_Some (m !! u_) \/ In u_ (List.map url docs).
Proof.
  revert m. induction docs as [|d docs IH]; intros m; simpl; [tauto|].
  rewrite IH, lookup_insert. case_decide as Hu.
  - split; [intros _; right; left; exact Hu | intros _; left; eauto].
  - split; [intros [H|H]; auto | intros [H|[H|H]]; auto; done].
Qed.

Lemma index_by_url_is_Some (docs : list ACSDocument) (u_ : str) :
  is_Some (index_by_url docs !! u_) <-> In u_ (List.map url docs).
Proof.
  unfold index_by_url. rewrite index_fold_is_Some, lookup_empty.
  split; [intros [[? H]|H]; [discriminate H | exact H] | by right].
Qed.

Lemma run_outcome (w : World) :
  exists (turns : list (ACSDocument * list ChangeEvent)) w1,
    run_loop py env w = ((concat (List.map snd turns), List.map fst turns), w1) /\
    Forall2 (fun doc turn =>
               turn_outcome (index_by_url (fst (load_known_documents w)))
                            doc (fst turn) (snd turn))
            (fst (discover_acs_documents env w)) turns /\
    dom (acs_documents (store w)) ⊆ dom (acs_documents (store w1)).
Proof.
  unfold run_loop.
  destruct (discover_spec env w) as [_ Hstore].
  destruct (monitor_loop_outcome (index_by_url (fst (load_known_documents w)))
              (fst (discover_acs_documents env w)) [] []
              (snd (discover_acs_documents env w)))
    as (turns & w1 & Hloop & Hall & Hkeep).
  { intros u_ k. apply index_by_url_sound. }
  exists turns, w1. split; [exact Hloop|]. split; [exact Hall|].
  intros path. rewrite !elem_of_dom, <- Hstore. apply Hkeep.
Qed.

Lemma turns_events_agree (loaded docs : list ACSDocument)
    (turns : list (ACSDocument * list ChangeEvent)) :
  Forall2 (fun doc turn => turn_outcome (index_by_url loaded) doc (fst turn) (snd turn))
          docs turns ->
  Forall (event_agrees loaded) (concat (List.map snd turns)) /\
  length (concat (List.map snd turns)) <= length docs /\
  List.map url (List.map fst turns) = List.map url docs.
Proof.
  induction 1 as [|doc [d evs] docs turns [Hurl Hturn] _ (IHa & IHl & IHu)]; simpl.
  - repeat split; [constructor | lia].
  - simpl in *. rewrite length_app, Hurl, IHu.
    assert (Hevs : Forall (event_agrees loaded) evs /\ length evs <= 1).
    { destruct (index_by_url loaded !! url doc) as [k|] eqn:Hk.
      - destruct Hturn as [->|([t ->] & Hhash & Hpath)]; [split; [constructor | simpl; lia]|].
        split; [|simpl; lia].
        repeat constructor; unfold event_agrees; simpl; try assumption.
        rewrite Hurl. apply index_by_url_is_Some. by rewrite Hk.
      - destruct Hturn as [_ [t ->]]. split; [|simpl; lia].
        repeat constructor. unfold event_agrees. simpl. rewrite Hurl.
        intros Hin. apply index_by_url_is_Some in Hin. rewrite Hk in Hin.
        by destruct Hin. }
    destruct Hevs as [Hevs Hlen].
    repeat split; [by apply Forall_app | lia].
Qed.

Lemma summary_of_run (w : World) :
  last_run_summary_json (store (snd (monitor py env w))) =
    Some {| sum_timestamp := clock env (tick (snd (run_loop py env w)));
            total_documents := length (snd (fst (run_loop py env w)));
            changes_detected := length (fst (fst (run_loop py env w)));
            changes := fst (fst (run_loop py env w)) |}.
Proof. rewrite (monitor_run py env w). reflexivity. Qed.

(** X7: every event a run logs agrees with the registry the run loaded: an
    event of kind [new] is for a URL the registry did not hold, an event of
    kind [updated] is for a URL it held and carries a record with a content
    hash and a local path. *)
Theorem events_agree_with_registry (w : World) :
  exists s,
    last_run_summary_json (store (snd (monitor py env w))) = Some s /\
    Forall (event_agrees (fst (load_known_documents w))) (changes s).
Proof.
  rewrite summary_of_run. eexists. split; [reflexivity|]. cbn [changes].
  destruct (run_outcome w) as (turns & w1 & -> & Hall & _). cbn [fst].
  by apply (turns_events_agree _ _ _ Hall).
Qed.

(** X8: a run logs at most one event per discovered document, saves one
    record per discovered document, and its summary counts both: the
    number of changes is the length of its change list and never exceeds
    the number of documents, which is the number of links of the page. *)
Theorem summary_counts_the_run (w : World) :
  exists s saved,
    last_run_summary_json (store (snd (monitor py env w))) = Some s /\
    known_documents_json (store (snd (monitor py env w))) = Records saved /\
    total_documents s = length saved /\
    total_documents s = length (links_at env (tick w)) /\
    changes_detected s = length (changes s) /\
    changes_detected s <= total_documents s.
Proof.
  rewrite summary_of_run, (monitor_run py env w). cbv zeta.
  destruct (run_outcome w) as (turns & w1 & -> & Hall & _).
  destruct (discover_spec env w) as [Hdisc _].
  destruct (turns_events_agree _ _ _ Hall) as (_ & Hlen & Hurls).
  assert (Hdocs : length (List.map fst turns) = length (links_at env (tick w))).
  { rewrite <- (length_map url), Hurls, length_map. symmetry.
    eapply Forall2_length, Hdisc. }
  eexists _, _. split; [reflexivity|]. split; [reflexivity|].
  cbn [fst snd total_documents changes_detected changes].
  repeat split; [exact Hdocs|].
  rewrite Hdocs, (Forall2_length _ _ _ Hdisc). exact Hlen.
Qed.

(** X9: a run never deletes a stored document: every path that held a file
    before the run still holds one after it. *)
Theorem stored_documents_are_kept (w : World) :
  dom (acs_documents (store w)) ⊆ dom (acs_documents (store (snd (monitor py env w)))).
Proof.
  rewrite (monitor_run py env w). cbv zeta. cbn [acs_documents].
  destruct (run_outcome w) as (turns & w1 & -> & _ & Hkeep). exact Hkeep.
Qed.

Lemma turns_all_new (docs : list ACSDocument)
    (turns : list (ACSDocument * list ChangeEvent)) :
  Forall2 (fun doc turn => turn_outcome ∅ doc (fst turn) (snd turn)) docs turns ->
  Forall2 (fun doc ev => type ev = new /\ url (document ev) = url doc /\
                         name (document ev) = name doc)
          docs (concat (List.map snd turns)).
Proof.
  induction 1 as [|doc [d evs] docs turns [Hurl Hturn] _ IH]; simpl; [constructor|].
  simpl in *. rewrite lookup_empty in Hturn. destruct Hturn as [Hname [t ->]].
  simpl. constructor; [by repeat split | exact IH].
Qed.

(** X10: when the registry file is missing, unreadable or empty, a run
    logs exactly one event per discovered document, in discovery order, each
    of kind [new] and under the name and URL of its link; the change log
    is overwritten with these events as soon as there is one. *)
Theorem first_run_reports_every_document (w : World) :
  no_registry (known_documents_json (store w)) ->
  exists s,
    last_run_summary_json (store (snd (monitor py env w))) = Some s /\
    Forall2 (fun link ev => type ev = new /\ url (document ev) = snd link /\
                            name (document ev) = fst link)
            (links_at env (tick w)) (changes s) /\
    (links_at env (tick w) <> [] ->
     changes_json (store (snd (monitor py env w))) = Some (changes s)).
Proof.
  intros Hno.
  assert (Hloaded : fst (load_known_documents w) = []).
  { unfold load_known_documents, no_registry in *. rewrite bind_run. unfold get. simpl.
    destruct (known_documents_json (store w)) as [| |[|d docs]]; done. }
  rewrite summary_of_run, (monitor_run py env w). cbv zeta.
  destruct (run_outcome w) as (turns & w1 & -> & Hall & _).
  rewrite Hloaded in Hall. change (index_by_url []) with (∅ : gmap str ACSDocument) in Hall.
  apply turns_all_new in Hall.
  destruct (discover_spec env w) as [Hdisc _].
  assert (Hevs : Forall2 (fun link ev => type ev = new /\ url (document ev) = snd link /\
                            name (document ev) = fst link)
            (links_at env (tick w)) (concat (List.map snd turns))).
  { revert Hall. generalize (concat (List.map snd turns)). clear -Hdisc.
    induction Hdisc as [|link d links docs [t ->] _ IH]; intros evs Hall.
    - inversion Hall. constructor.
    - inversion Hall as [|? ev ? evs' Hev Hrest]; subst. constructor; [exact Hev | by apply IH]. }
  eexists. split; [reflexivity|]. cbn [fst snd changes changes_json].
  split; [exact Hevs|]. intros Hne.
  destruct Hevs; [done | reflexivity].
Qed.

(** X11: when discovery yields no document (the page request raises or
    lists no link), the run saves an empty registry in place of the loaded
    one, leaves the stored documents and the change log as they were and
    writes a summary of zero documents and zero changes. *)
Theorem empty_discovery_clears_registry (w : World) :
  links_at env (tick w) = [] ->
  store (snd (monitor py env w)) =
    {| acs_documents := acs_documents (store w);
       known_documents_json := Records [];
       changes_json := changes_json (store w);
       last_run_summary_json :=
         Some {| sum_timestamp := clock env (S (tick w));
                 total_documents := 0; changes_detected := 0; changes := [] |} |}.
Proof.
  intros Hlinks. rewrite (monitor_run py env w). cbv zeta.
  assert (Hdisc : discover_acs_documents env w = ([], after_call w)).
  { unfold links_at in Hlinks.
    unfold discover_acs_documents. rewrite bind_run. unfold ask at 1 2. simpl.
    destruct (acs_links env (tick w)) as [links|]; simpl in *; [subst links|]; reflexivity. }
  unfold run_loop. rewrite Hdisc. reflexivity.
Qed.

(** X12: the record a run checks for a URL is the last one the registry
    lists under it, and a URL the registry does not list has none. *)
Theorem index_by_url_last_wins (docs : list ACSDocument) (u_ : str) :
  index_by_url docs !! u_ =
  last (List.filter (fun d => bool_decide (url d = u_)) docs).
Proof.
  induction docs as [|d docs IH] using rev_ind; [apply lookup_empty|].
  unfold index_by_url in *. rewrite foldl_app. simpl.
  rewrite List.filter_app. simpl. rewrite lookup_insert.
  case_bool_decide as Hu; case_decide; try done.
  - by rewrite last_snoc.
  - by rewrite app_nil_r.
Qed.

End MonitorMore.

(** ** Further properties of the pattern engine *)

Section EngineMore.
Import Re EngineNotions.
Context (digit : N -> bool).

Lemma run_length_le (cs : cset) (hi : option nat) (s : str) :
  run_length digit cs hi s <= length s.
Proof.
  revert hi. induction s as [|c s IH]; intros hi; simpl.
  - destruct hi as [[|n]|]; lia.
  - destruct hi as [[|n]|]; simpl; [lia| |];
      destruct (cset_match digit cs c); simpl; try lia;
      match goal with |- S (run_length _ _ ?h _) <= _ => specialize (IH h) end; lia.
Qed.

Lemma run_bounds (p : pattern) (s : str) (pos : nat) (ms : list (nat * nat)) (e : nat) (ms' : list (nat * nat)) :
  run digit p s pos ms = Some (e, ms') ->
  pos + min_width p <= e /\ e <= pos + length s.
Proof.
  revert s pos ms. induction p as [|i p IH]; intros s pos ms; simpl.
  - intros [= <- <-]. unfold min_width. simpl. lia.
  - unfold min_width in *. destruct i as [cs|cs lo hi|k]; simpl.
    + destruct s as [|c s]; [discriminate|].
      destruct (cset_match digit cs c); [|discriminate].
      intros H. apply IH in H. simpl. lia.
    + pose proof (run_length_le cs hi s) as Hk. revert Hk.
      generalize (run_length digit cs hi s). intros k.
      induction k as [|k IHk]; intros Hk.
      * destruct (lo <=? 0) eqn:Hlo; [|discriminate].
        apply Nat.leb_le in Hlo.
        destruct (run digit p (skipn 0 s) (pos + 0) ms) as [[e1 ms1]|] eqn:Hr; [|discriminate].
        intros [= <- <-]. apply IH in Hr. rewrite length_skipn in Hr. lia.
      * destruct (lo <=? S k) eqn:Hlo.
        -- apply Nat.leb_le in Hlo.
           destruct (run digit p (skipn (S k) s) (pos + S k) ms) as [[e1 ms1]|] eqn:Hr.
           ++ intros [= <- <-]. apply IH in Hr. rewrite length_skipn in Hr. lia.
           ++ intros H. apply IHk in H; lia.
        -- intros H. apply IHk in H; lia.
    + intros H. apply IH in H. lia.
Qed.

Lemma scan_spans (p : pattern) (s : str) (pos skip : nat) :
  Forall (fun m => pos + skip <= m_start m /\
                   m_start m + min_width p <= m_end m /\
                   m_end m <= pos + length s)
         (scan digit p s pos skip) /\
  StronglySorted follows (scan digit p s pos skip).
Proof.
  revert pos skip. induction s as [|c s IH]; intros pos skip; simpl.
  - split; constructor.
  - destruct skip as [|k].
    + destruct (run digit p (c :: s) pos []) as [[e ms]|] eqn:Hr.
      * apply run_bounds in Hr. simpl in Hr.
        destruct (IH (S pos) (pred (e - pos))) as [Hall Hsorted].
        split.
        -- constructor; [simpl; lia|].
           eapply Forall_impl; [exact Hall|]. simpl. intros m. lia.
        -- constructor; [exact Hsorted|].
           eapply Forall_impl; [exact Hall|]. unfold follows. simpl. intros m. lia.
      * destruct (IH (S pos) 0) as [Hall Hsorted]. split; [|exact Hsorted].
        eapply Forall_impl; [exact Hall|]. simpl. intros m. lia.
    + destruct (IH (S pos) k) as [Hall Hsorted]. split; [|exact Hsorted].
      eapply Forall_impl; [exact Hall|]. simpl. intros m. lia.
Qed.

(** X13: for every pattern of the fragment and every text, the matches
    [finditer] yields lie within the text, come in increasing order and do
    not overlap: each starts at or after the end of the one before. *)
Theorem finditer_matches_are_disjoint (p : string) (text : str) :
  Forall (fun m => m_start m <= m_end m /\ m_end m <= length text)
         (finditer digit p text) /\
  StronglySorted follows (finditer digit p text).
Proof.
  unfold finditer. destruct (compile p) as [r|]; [|split; constructor].
  destruct (scan_spans r text 0 0) as [Hall Hsorted]. split; [|exact Hsorted].
  eapply Forall_impl; [exact Hall|]. simpl. intros m. lia.
Qed.

(** *** Groups do not change what is matched *)

Lemma run_forget (keep : nat -> bool) (p : pattern) (s : str) (pos : nat)
    (ms : list (nat * nat)) :
  run digit (forget_groups keep p) s pos (forget_marks keep ms) =
  (fun r => (fst r, forget_marks keep (snd r))) <$> run digit p s pos ms.
Proof.
  revert s pos ms. induction p as [|i p IH]; intros s pos ms; [reflexivity|].
  destruct i as [cs|cs lo hi|k]; simpl.
  - destruct s as [|c s]; [reflexivity|].
    destruct (cset_match digit cs c); [apply IH | reflexivity].
  - generalize (run_length digit cs hi s). intros k.
    induction k as [|k IHk].
    + destruct (lo <=? 0); [|reflexivity].
      fold (forget_groups keep p). rewrite IH.
      destruct (run digit p (skipn 0 s) (pos + 0) ms) as [[e1 ms1]|]; reflexivity.
    + destruct (lo <=? S k); [|exact IHk].
      fold (forget_groups keep p). rewrite IH.
      destruct (run digit p (skipn (S k) s) (pos + S k) ms) as [[e1 ms1]|];
        [reflexivity | exact IHk].
  - destruct (keep k) eqn:Hk; simpl.
    + fold (forget_groups keep p).
      rewrite <- IH. unfold forget_marks at 2. simpl. rewrite Hk. reflexivity.
    + fold (forget_groups keep p).
      rewrite <- IH. unfold forget_marks at 2. simpl. rewrite Hk. reflexivity.
Qed.

Lemma scan_forget (keep : nat -> bool) (p : pattern) (s : str) (pos skip : nat) :
  scan digit (forget_groups keep p) s pos skip =
  List.map (forget_in_match keep) (scan digit p s pos skip).
Proof.
  revert pos skip. induction s as [|c s IH]; intros pos skip; [reflexivity|].
  cbn [scan]. destruct skip as [|k]; [|apply IH].
  change (@nil (nat * nat)) with (forget_marks keep []) at 1.
  rewrite run_forget.
  destruct (run digit p (c :: s) pos []) as [[e ms]|]; simpl; [|apply IH].
  f_equal. apply IH.
Qed.

Lemma lookup_mark_forget (keep : nat -> bool) (i : nat) (ms : list (nat * nat)) :
  keep i = true -> lookup_mark i (forget_marks keep ms) = lookup_mark i ms.
Proof.
  intros Hi. unfold lookup_mark. f_equal.
  induction ms as [|[k x] ms IH]; [reflexivity|]. simpl.
  destruct (keep k) eqn:Hk; simpl.
  - destruct (k =? i); [reflexivity | exact IH].
  - destruct (Nat.eqb_spec k i) as [->|_]; [congruence | exact IH].
Qed.

Lemma spans_forget (keep : nat -> bool) (p q : pattern) (text : str) :
  forget_groups keep p = forget_groups keep q ->
  List.map (forget_in_match keep) (scan digit p text 0 0) =
  List.map (forget_in_match keep) (scan digit q text 0 0).
Proof. intros H. rewrite <- !scan_forget, H. reflexivity. Qed.

End EngineMore.

(** ** Further properties of the extraction engine *)

Section ProcessorMore.
Import Re Processor EngineNotions.
Context (py : Builtins).

Lemma section_rule_compiled (p : string) :
  In p section_patterns -> exists r, compile p = Some r /\ 1 <= min_width r.
Proof.
  simpl. intros H.
  repeat (destruct H as [<-|H]; [eexists; split; [vm_compute; reflexivity | vm_compute; lia]|]).
  destruct H.
Qed.

Lemma substring_length (text : str) (a b : nat) :
  a <= b -> b <= length text -> length (substring text a b) = b - a.
Proof.
  intros Hab Hb. unfold substring. rewrite length_firstn, length_skipn. lia.
Qed.

(** X14: every section [parse_acs_sections] returns spans at least one
    character and lies within the text: its offset plus its length does not
    exceed the length of the text. *)
Theorem sections_lie_within_text (text : str) :
  Forall (fun sec => 1 <= sec_length sec /\
                     sec_position sec + sec_length sec <= length text)
         (parse_acs_sections py text).
Proof.
  unfold parse_acs_sections.
  eapply Permutation_Forall; [symmetry; apply sort_by_perm|].
  apply Forall_flat_map. apply Forall_forall. intros p Hp.
  apply list_elem_of_In in Hp.
  destruct (section_rule_compiled p Hp) as (r & Hr & Hw).
  unfold Processor.finditer, Re.finditer. rewrite Hr.
  destruct (scan_spans (re_digit py) r text 0 0) as [Hall _].
  apply Forall_map. eapply Forall_impl; [exact Hall|].
  intros m (_ & Hlo & Hhi). simpl in *.
  rewrite substring_length by lia. lia.
Qed.

Lemma group2_forget (text : str) (m : rmatch) :
  group text (forget_in_match group2 m) 2 = group text m 2.
Proof.
  unfold group, forget_in_match. cbn [m_marks].
  rewrite !lookup_mark_forget by reflexivity. reflexivity.
Qed.

Lemma contents_agree (p q : string) (r1 r2 : pattern) (text : str) :
  compile p = Some r1 -> compile q = Some r2 ->
  forget_groups group2 r1 = forget_groups group2 r2 ->
  List.map (fun m => strip (group text m 2)) (Processor.finditer py p text) =
  List.map (fun m => strip (group text m 2)) (Processor.finditer py q text).
Proof.
  intros Hp Hq Hsame. unfold Processor.finditer, Re.finditer. rewrite Hp, Hq.
  transitivity (List.map (fun m => strip (group text m 2))
                  (List.map (forget_in_match group2) (scan (re_digit py) r1 text 0 0))).
  - rewrite List.map_map. apply map_ext. intros m. by rewrite group2_forget.
  - rewrite (spans_forget (re_digit py) group2 r1 r2 text Hsame).
    rewrite List.map_map. apply map_ext. intros m. by rewrite group2_forget.
Qed.

(** X15: the standards table and the section list agree: the titles of the
    areas of operation are, in order, the contents of the sections the
    area-of-operation rule yields, and the titles of the tasks those of the
    task rule, although the two functions use patterns with different
    groups. *)
Theorem standards_agree_with_sections (text : str) :
  firstn 2 section_patterns = [area_rule; task_rule] /\
  List.map title (areas_of_operation (extract_acs_standards py text)) =
    List.map (fun m => sec_content (section_of_match text m))
             (Processor.finditer py area_rule text) /\
  List.map task_title (tasks (extract_acs_standards py text)) =
    List.map (fun m => sec_content (section_of_match text m))
             (Processor.finditer py task_rule text).
Proof.
  split; [reflexivity|]. unfold extract_acs_standards. cbn [areas_of_operation tasks].
  rewrite !List.map_map. cbn [title task_title sec_content section_of_match].
  split.
  - eapply contents_agree; vm_compute; reflexivity.
  - eapply contents_agree; vm_compute; reflexivity.
Qed.

(** *** Stripping *)

Lemma lstrip_suffix (s : str) : exists pre, s = pre ++ lstrip s.
Proof.
  induction s as [|c s [pre IH]]; simpl; [by exists []|].
  destruct (isspace c); [|by exists []].
  exists (c :: pre). simpl. by f_equal.
Qed.

Lemma lstrip_fixed (s : str) :
  lstrip s = s <-> match s with [] => True | c :: _ => isspace c = false end.
Proof.
  destruct s as [|c s]; simpl; [done|].
  destruct (isspace c) eqn:Hc; [|done].
  split; [|done]. intros H. destruct (lstrip_suffix s) as [pre Hpre].
  assert (Hlen : length (lstrip s) = S (length s)) by (by rewrite H).
  rewrite Hpre in Hlen at 2. rewrite length_app in Hlen. lia.
Qed.

Lemma lstrip_idem (s : str) : lstrip (lstrip s) = lstrip s.
Proof.
  induction s as [|c s IH]; simpl; [done|].
  destruct (isspace c) eqn:Hc; [exact IH|]. simpl. by rewrite Hc.
Qed.

Lemma strip_idem (s : str) : strip (strip s) = strip s.
Proof.
  unfold strip.
  assert (Hl : lstrip (rstrip (lstrip s)) = rstrip (lstrip s)).
  { generalize (lstrip_idem s). generalize (lstrip s). intros t Ht.
    apply lstrip_fixed. apply lstrip_fixed in Ht.
    unfold rstrip. destruct (lstrip_suffix (rev t)) as [pre Hpre].
    assert (Ht' : t = rev (lstrip (rev t)) ++ rev pre).
    { rewrite <- rev_app_distr, <- Hpre. by rewrite rev_involutive. }
    destruct (rev (lstrip (rev t))) as [|c r]; [done|].
    rewrite Ht' in Ht. exact Ht. }
  rewrite Hl. unfold rstrip. rewrite rev_involutive, lstrip_idem. reflexivity.
Qed.

(** X16: the type and the content of every section are stripped: stripping
    them again changes nothing, so neither starts or ends with
    whitespace. *)
Theorem sections_are_stripped (text : str) :
  Forall (fun sec => strip (sec_type sec) = sec_type sec /\
                     strip (sec_content sec) = sec_content sec)
         (parse_acs_sections py text).
Proof.
  unfold parse_acs_sections.
  eapply Permutation_Forall; [symmetry; apply sort_by_perm|].
  apply Forall_flat_map. apply Forall_forall. intros p _.
  apply Forall_map. apply Forall_forall. intros m _. simpl.
  split; apply strip_idem.
Qed.

Context (be : Backend) (clock : nat -> str).

Lemma count_words_le (inword : bool) (s : str) : count_words inword s <= length s.
Proof.
  revert inword. induction s as [|c s IH]; intros inword; simpl; [lia|].
  destruct (isspace c); [specialize (IH false); lia|].
  destruct inword; specialize (IH true); lia.
Qed.

(** X17: a processed document has structured content exactly when text was
    extracted; its character count is then the length of the text, its word
    count does not exceed it, and its sections and standards are those
    parsed from the text. Without text it has no sections either. *)
Theorem structured_content_matches_text (method : Method) (pdf_path : str) (w : World) :
  let doc := fst (process_document py be clock method pdf_path w) in
  match structured_content doc with
  | Some sc =>
      text_content doc <> [] /\
      character_count sc = length (text_content doc) /\
      word_count sc <= character_count sc /\
      standards sc = extract_acs_standards py (text_content doc) /\
      sections doc = Some (parse_acs_sections py (text_content doc))
  | None => text_content doc = [] /\ sections doc = None
  end.
Proof.
  cbv zeta. unfold process_document.
  destruct (extract_text be method pdf_path) as [[|c text] md]; simpl; [done|].
  repeat split; [done|].
  pose proof (count_words_le false (c :: text)) as Hle. simpl in Hle. exact Hle.
Qed.

(** X18: the processor names a document stored by the monitor after its
    sanitized name: the stem of the path [download_and_verify] writes to is
    the sanitized name of the document, and [.pdf] when that name is
    empty. *)
Theorem stored_document_is_named_by_safe_name
    (document : Monitor.ACSDocument) (method : Method) (w : World) :
  str_isalnum py 47 = false ->
  let pdf_path := MonitorNotions.stored_path py document in
  path_stem pdf_path =
    (match safe_name py document with [] => u ".pdf" | _ => safe_name py document end) /\
  name (fst (process_document py be clock method pdf_path w)) = path_stem pdf_path.
Proof.
  intros Hslash. cbv zeta. split.
  - unfold path_stem. rewrite (stored_path_name py document Hslash).
    unfold MonitorNotions.stored_file. fold (safe_name py document).
    generalize (safe_name py document). intros safe.
    rewrite rev_app_distr. change (rev (u ".pdf")) with ([102; 100; 112] ++ 46 :: [])%N.
    rewrite <- app_assoc. cbn [app].
    change (102 :: 100 :: 112 :: 46 :: rev safe)%N
      with (([102; 100; 112] ++ 46 :: rev safe)%N).
    rewrite until_stops by (vm_compute; intuition discriminate).
    rewrite length_app. cbn [length].
    destruct safe as [|c safe]; [reflexivity|].
    change (length (u ".pdf")) with 4.
    destruct (Nat.ltb_spec 4 (length (c :: safe) + 4)) as [_|Hlen]; [|simpl in Hlen; lia].
    cbn [Nat.ltb Nat.leb andb skipn]. apply rev_involutive.
  - unfold process_document.
    destruct (extract_text be method _) as [[|c text] md]; reflexivity.
Qed.

(** *** What a batch keeps *)

Lemma process_document_saved (method : Method) (pdf_path : str) (w : World) :
  saved (snd (process_document py be clock method pdf_path w)) = saved w.
Proof.
  unfold process_document.
  destruct (extract_text be method pdf_path) as [[|c text] md]; reflexivity.
Qed.

Lemma last_named_cons (n : str) (doc : ProcessedDocument) (docs : list ProcessedDocument) :
  last_named n (doc :: docs) =
  match last_named n docs with
  | Some d => Some d
  | None => if decide (name doc = n) then Some doc else None
  end.
Proof.
  unfold last_named. simpl. case_bool_decide as Hn.
  - rewrite decide_True by exact Hn.
    destruct (List.filter _ docs) as [|d ds] eqn:Hf; [reflexivity|].
    rewrite last_cons. destruct (last (d :: ds)) eqn:Hl; [reflexivity|].
    by apply last_None in Hl.
  - rewrite decide_False by exact Hn. by destruct (last _).
Qed.

(** The JSON artifact of a name lies at a path of its own. *)
Lemma metadata_file_inj (n m : str) : metadata_file n = metadata_file m -> n = m.
Proof.
  unfold metadata_file. intros H. do 2 apply app_inv_head in H. by apply app_inv_tail in H.
Qed.

Lemma text_file_no_metadata (n m : str) : text_file n <> metadata_file m.
Proof. unfold text_file, metadata_file. intros H. discriminate H. Qed.

Lemma md_file_no_metadata (n m : str) : md_file n <> metadata_file m.
Proof. unfold md_file, metadata_file. intros H. discriminate H. Qed.

Context (unwritable : str -> bool).

(** The JSON artifact is the last of the three writes: it is written, and
    then wholly, exactly when the document is saved. *)
Lemma save_processed_document_metadata (doc : ProcessedDocument) (w : World) (n : str) :
  saved (snd (save_processed_document unwritable doc w)) !! metadata_file n =
    if savable unwritable doc && bool_decide (name doc = n)
    then Some (Whole doc)
    else saved w !! metadata_file n.
Proof.
  unfold save_processed_document, savable. rewrite bind_run, write_artifact_run.
  destruct (unwritable (text_file (name doc))); [reflexivity|]. cbn [fst snd negb andb mret M_ret].
  destruct (encodable (text_content doc)); cbn [andb saved fst snd mret M_ret];
    [|apply lookup_insert_ne, text_file_no_metadata].
  rewrite bind_run, write_artifact_run.
  destruct (unwritable (md_file (name doc))); cbn [fst snd negb andb saved mret M_ret];
    [apply lookup_insert_ne, text_file_no_metadata|].
  destruct (forallb encodable (md_strings doc)); cbn [andb saved fst snd mret M_ret].
  2: { rewrite lookup_insert_ne by apply md_file_no_metadata.
       apply lookup_insert_ne, text_file_no_metadata. }
  rewrite write_artifact_run.
  destruct (unwritable (metadata_file (name doc))); cbn [fst snd negb andb saved mret M_ret].
  { rewrite lookup_insert_ne by apply md_file_no_metadata.
    apply lookup_insert_ne, text_file_no_metadata. }
  case_bool_decide as Hn.
  - subst n. apply lookup_insert_eq.
  - rewrite lookup_insert_ne by (intros H; by apply metadata_file_inj in H).
    rewrite lookup_insert_ne by apply md_file_no_metadata.
    apply lookup_insert_ne, text_file_no_metadata.
Qed.

(** What one turn of the batch returns and leaves as JSON artifacts. *)
Lemma process_step_saved (method : Method) (f : str)
    (acc : list ProcessedDocument) (w : World) :
  let doc := fst (process_document py be clock method f w) in
  let r := process_step py be clock unwritable method acc f w in
  fst r = acc ++ List.filter (savable unwritable) [doc] /\
  forall n,
    saved (snd r) !! metadata_file n =
      if savable unwritable doc && bool_decide (name doc = n)
      then Some (Whole doc)
      else saved w !! metadata_file n.
Proof.
  cbv zeta. unfold process_step. rewrite !bind_run.
  pose proof (save_processed_document_ok unwritable
                (fst (process_document py be clock method f w))
                (snd (process_document py be clock method f w))) as Hok.
  pose proof (save_processed_document_metadata
                (fst (process_document py be clock method f w))
                (snd (process_document py be clock method f w))) as Hmeta.
  rewrite process_document_saved in Hmeta.
  rewrite Hok. cbn [List.filter].
  destruct (savable unwritable _); cbn [fst snd mret M_ret];
    (split; [by rewrite ?app_nil_r | exact Hmeta]).
Qed.

Lemma process_loop_saved (method : Method) (files : list str)
    (acc : list ProcessedDocument) (w : World) :
  exists docs,
    fst (for_each (process_step py be clock unwritable method) files acc w) = acc ++ docs /\
    forall n,
      saved (snd (for_each (process_step py be clock unwritable method) files acc w))
        !! metadata_file n =
      match last_named n docs with
      | Some d => Some (Whole d)
      | None => saved w !! metadata_file n
      end.
Proof.
  revert acc w. induction files as [|f files IH]; intros acc w; cbn [for_each].
  - exists []. rewrite app_nil_r. split; [reflexivity|]. intros n. reflexivity.
  - rewrite bind_run.
    pose proof (process_step_saved method f acc w) as [Hacc Hstep]. cbv zeta in Hacc, Hstep.
    set (doc := fst (process_document py be clock method f w)) in *.
    rewrite Hacc.
    destruct (IH (acc ++ List.filter (savable unwritable) [doc])
                 (snd (process_step py be clock unwritable method acc f w)))
      as (docs & Hdocs & Hkept).
    cbn [List.filter] in Hdocs, Hkept |- *.
    destruct (savable unwritable doc) eqn:Hsav; cbn [andb] in Hstep.
    + exists (doc :: docs). split; [rewrite Hdocs, <- app_assoc; reflexivity|].
      intros n. rewrite Hkept, last_named_cons, Hstep.
      destruct (last_named n docs); [reflexivity|].
      case_bool_decide; [by rewrite decide_True | by rewrite decide_False].
    + rewrite app_nil_r in Hdocs, Hkept |- *. exists docs. split; [exact Hdocs|].
      intros n. rewrite Hkept, Hstep. reflexivity.
Qed.

(** X19: after a batch, the JSON artifact of a name the batch returns a
    document for is the whole rendering of the last document returned with
    that name (documents whose files have the same stem replace each other);
    the JSON artifact of a name the batch returns no document for, be it
    that no file has this stem or that an artifact of its documents could
    not be written, keeps what it held. *)
Theorem batch_keeps_last_document_per_name
    (method : Method) (pdf_files : option (list str)) (w : World) (n : str) :
  let r := process_all_documents py be clock unwritable method pdf_files w in
  saved (snd r) !! metadata_file n =
    match last_named n (fst r) with
    | Some d => Some (Whole d)
    | None => saved w !! metadata_file n
    end.
Proof.
  cbv zeta. unfold process_all_documents.
  destruct pdf_files as [[|f files]|]; [reflexivity| |reflexivity].
  destruct (process_loop_saved method (f :: files) [] w) as (docs & Hdocs & Hsaved).
  run_bind. cbn [fst snd]. rewrite Hdocs. exact (Hsaved n).
Qed.

End ProcessorMore.

(** ** Properties of the notifier *)

Section NotifierMore.
Import Monitor Notifier.

Lemma extend_lines_hashes (body_lines : list str) (changes : list ChangeEvent) :
  is_Some (extend_lines body_lines changes) <->
  Forall (fun change => is_Some (content_hash (document change))) changes.
Proof.
  revert body_lines. induction changes as [|change changes IH]; intros body_lines; simpl.
  - split; [constructor | eauto].
  - unfold change_lines. destruct (content_hash (document change)) as [h|] eqn:Hh.
    + rewrite IH. split; [intros H; constructor; [rewrite Hh; eauto | exact H]|].
      intros H. by inversion H.
    + split; [intros [? H]; discriminate H|].
      intros H. inversion H as [|? ? Hsome]. rewrite Hh in Hsome. by destruct Hsome.
Qed.

(** X20: the notifier creates an issue only when the change log exists and
    holds at least one change, the token is set and not empty, and every
    logged document has a content hash; the issue then carries the three
    fixed labels and is the one handed to [create_issue]. *)
Theorem issue_needs_changes_token_and_hashes
    (gh : Github) (changes_file : option (list ChangeEvent))
    (issue : Issue) (html_url : str) :
  create_change_notification gh changes_file = Created issue html_url ->
  exists changes token,
    changes_file = Some changes /\ changes <> [] /\
    GITHUB_TOKEN gh = Some token /\ token <> [] /\
    Forall (fun change => is_Some (content_hash (document change))) changes /\
    create_issue gh issue = Some html_url /\
    issue_labels issue = [u "faa-acs"; u "document-update"; u "automated"].
Proof.
  unfold create_change_notification.
  destruct changes_file as [[|change changes]|]; try discriminate.
  destruct (GITHUB_TOKEN gh) as [[|c token]|]; try discriminate.
  destruct (get_repo gh _); [|discriminate].
  match goal with |- context [extend_lines ?b ?cs] =>
    pose proof (proj1 (extend_lines_hashes b cs)) as Hhash;
    destruct (extend_lines b cs) as [body_lines|] end; [|discriminate].
  match goal with |- context [create_issue gh ?i] =>
    destruct (create_issue gh i) as [html|] eqn:Hcreate end; [|discriminate].
  intros [= <- <-]. exists (change :: changes), (c :: token).
  repeat split; try done. apply Hhash. eauto.
Qed.

(** X21: a run that logs a new document whose body fetch failed (the
    request the run makes when the turn of the document begins; nothing is
    asked of the requests made at other times) leaves a change log the
    notifier cannot render: with a token set and the repository found, it
    raises on the absent content hash and creates no issue. *)
Theorem notifier_raises_after_failed_fetch
    (py : Builtins) (env : Env) (w : World) (i : nat) (link : str * str) (gh : Github) :
  links_at env (tick w) !! i = Some link ->
  ~ In (snd link) (List.map url (fst (load_known_documents w))) ->
  fetch_fails env (tick (turn_state py env i w)) (snd link) ->
  (exists c token, GITHUB_TOKEN gh = Some (c :: token)) ->
  get_repo gh (default default_repository (GITHUB_REPOSITORY gh)) = true ->
  create_change_notification gh (changes_json (store (snd (monitor py env w)))) = Raised.
Proof.
  intros Hi Hfresh Hfails (c & token & Htoken) Hrepo.
  destruct (run_turn_new py env w i link Hi Hfresh Hfails) as (t_seen & t_event & _ & Hev).
  destruct (run_loop_spec py env w) as (evs & ds & w1 & Hrun & _).
  rewrite Hrun in Hev. cbn [fst snd] in Hev.
  rewrite (monitor_run py env w). cbv zeta. rewrite Hrun. cbn [fst snd changes_json].
  destruct evs as [|ev evs]; [destruct Hev|].
  unfold create_change_notification. rewrite Htoken, Hrepo.
  match goal with |- context [extend_lines ?b ?cs] =>
    pose proof (proj1 (extend_lines_hashes b cs)) as Hhash;
    destruct (extend_lines b cs) as [body_lines|] end; [|reflexivity].
  exfalso. assert (Hall := Hhash ltac:(eauto)).
  rewrite Forall_forall in Hall. apply list_elem_of_In in Hev.
  destruct (Hall _ Hev) as [h Hh]. discriminate Hh.
Qed.

End NotifierMore.

(** ** The escalation path in general *)

Section Escalation.
Import Monitor MonitorNotions.
Context (py : Builtins) (env : Env).

(** X22: whenever a live header differs from the stored one and the body
    can be fetched, the check answers [changed = true] whatever the bytes
    are, provided the path of the document can be written: it then stores
    the bytes and returns the record with the live headers, the hash of the
    bytes fetched and the path they were stored under. When the path cannot
    be written, the check answers [changed = false] with the live headers
    and neither hash nor path, after its three calls, and stores nothing. *)
Theorem header_drift_is_reported
    (document : ACSDocument) (h : HeadResponse) (size : option Z)
    (response : GetResponse) (w : World) :
  probed py env (tick w) document h size ->
  evaluate document (Last_Modified h) (ETag h) size = Escalate ->
  fetched env (S (S (tick w))) (url document) response ->
  let r := check_document_changes py env document w in
  if unwritable env (stored_path py document)
  then r = ((false, updated_doc_of document h size (clock env (S (tick w)))),
            after_call (after_call (after_call w)))
  else
    fst r =
      (true,
       {| name := name document; url := url document;
          last_modified := Last_Modified h; etag := ETag h;
          content_hash := Some (SHA256.hexdigest (content response));
          file_size := size;
          local_path := Some (stored_path py document);
          last_checked := Some (clock env (S (tick w))) |}) /\
    acs_documents (store (snd r)) !! stored_path py document = Some (content response).
Proof.
  intros Hp He Hf. cbv zeta. rewrite (check_probed _ _ _ _ _ _ Hp). cbv zeta.
  unfold evaluate in He. destruct (headers_changed _ _ _ _); [|discriminate].
  destruct (unwritable env (stored_path py document)) eqn:Hw.
  - exact (download_refused py env
             (updated_doc_of document h size (clock env (S (tick w)))) response
             (after_call (after_call w)) Hf Hw).
  - rewrite (download_changed py env
               (updated_doc_of document h size (clock env (S (tick w)))) response
               (after_call (after_call w)) Hf ltac:(discriminate) Hw).
    split; [reflexivity|]. cbn [snd store acs_documents]. apply lookup_insert_eq.
Qed.

End Escalation.

(** ** The further properties at concrete inputs *)

Section MoreScenarios.
Import Monitor MonitorNotions Scenario NotifierScenario.

Lemma failed_fetch_changes_nothing_witness :
  let w := world Missing None in
  fst (download_and_verify ascii_builtins (unreachable [other_link]) unfetched w)
    = (false, unfetched) /\
  store (snd (download_and_verify ascii_builtins (unreachable [other_link]) unfetched w))
    = store w.
Proof.
  cbv zeta.
  apply (failed_fetch_changes_nothing ascii_builtins (unreachable [other_link])
           unfetched (world Missing None)).
  exact I.
Defined.

(** X2 for a document that is stored, and for one whose file name of 260
    characters the file system refuses. *)
Lemma changed_content_is_stored_witness :
  let w := world Missing None in
  let r := download_and_verify ascii_builtins (server "E1" body) unfetched w in
  (fst (fst r) = true /\
   content_hash (snd (fst r)) = Some body_hash /\
   local_path (snd (fst r)) = Some (u "data/acs-documents/Commercial Pilot ACS.pdf") /\
   acs_documents (store (snd r)) !! u "data/acs-documents/Commercial Pilot ACS.pdf"
     = Some body) /\
  download_and_verify ascii_builtins limited_server long_named w =
    ((false, long_named), after_call w).
Proof.
  cbv zeta. split.
  - pose proof (changed_content_is_stored ascii_builtins (server "E1" body) unfetched
                  {| get_status_code := 200; content := body |} (world Missing None)
                  (conj eq_refl eq_refl) ltac:(discriminate))
      as H.
    cbv zeta in H.
    destruct H as (H1 & H2 & H3 & _ & H5 & _).
    split; [exact H1|].
    split; [rewrite H2; vm_compute; reflexivity|].
    split; [rewrite H3; vm_compute; reflexivity|].
    exact H5.
  - exact (changed_content_is_stored ascii_builtins limited_server long_named
             {| get_status_code := 200; content := body |} (world Missing None)
             (conj eq_refl eq_refl) ltac:(discriminate)).
Defined.

Lemma stored_path_stays_in_docs_dir_witness :
  stored_path ascii_builtins known = u "data/acs-documents/Private Pilot ACS.pdf" /\
  ~ In 47%N (stored_file ascii_builtins known) /\
  Processor.path_name (stored_path ascii_builtins known) = u "Private Pilot ACS.pdf".
Proof.
  destruct (stored_path_stays_in_docs_dir ascii_builtins known eq_refl) as (H1 & H2 & H3).
  split; [vm_compute; reflexivity|]. split; [exact H2|].
  rewrite H3. vm_compute. reflexivity.
Defined.

Lemma verification_is_idempotent_witness :
  let w := world Missing None in
  let r := download_and_verify ascii_builtins (server "E1" body) unfetched w in
  download_and_verify ascii_builtins (server "E1" body) (snd (fst r)) (snd r) =
    ((false, snd (fst r)), after_call (snd r)).
Proof.
  cbv zeta.
  apply (verification_is_idempotent ascii_builtins (server "E1" body) unfetched
           {| get_status_code := 200; content := body |}
           {| get_status_code := 200; content := body |} (world Missing None)).
  - split; reflexivity.
  - split; reflexivity.
  - reflexivity.
Defined.

Lemma failed_probe_changes_nothing_witness :
  let w := world (Records [known]) None in
  check_document_changes ascii_builtins (unreachable [other_link]) known w =
    ((false, known), after_call w).
Proof.
  cbv zeta.
  apply (failed_probe_changes_nothing ascii_builtins (unreachable [other_link])
           known (world (Records [known]) None)).
  left. reflexivity.
Defined.

Lemma first_run_reports_every_document_witness :
  let w := world Unreadable None in
  exists s,
    last_run_summary_json (store (snd (monitor ascii_builtins (server "E1" body) w)))
      = Some s /\
    Forall2 (fun link ev => type ev = new /\ url (document ev) = snd link /\
                            name (document ev) = fst link)
            [(name known, url known)] (changes s).
Proof.
  cbv zeta.
  destruct (first_run_reports_every_document ascii_builtins (server "E1" body)
              (world Unreadable None) I) as (s & Hs & Hall & _).
  exists s. split; [exact Hs | exact Hall].
Defined.

Lemma empty_discovery_clears_registry_witness :
  let w := world (Records [known]) (Some [stale_event]) in
  known_documents_json (store (snd (monitor ascii_builtins (unreachable []) w)))
    = Records [] /\
  changes_json (store (snd (monitor ascii_builtins (unreachable []) w)))
    = Some [stale_event].
Proof.
  cbv zeta.
  rewrite (empty_discovery_clears_registry ascii_builtins (unreachable [])
             (world (Records [known]) (Some [stale_event]))) by reflexivity.
  split; reflexivity.
Defined.

Lemma stored_document_is_named_by_safe_name_witness :
  Processor.path_stem (stored_path ascii_builtins known) = u "Private Pilot ACS" /\
  Processor.name (fst (Processor.process_document ascii_builtins blank_backend stamp
                         Processor.pymupdf4llm (stored_path ascii_builtins known)
                         extraction_world))
    = u "Private Pilot ACS".
Proof.
  destruct (stored_document_is_named_by_safe_name ascii_builtins blank_backend stamp
              known Processor.pymupdf4llm extraction_world eq_refl) as [H1 H2].
  cbv zeta in *. rewrite H2, H1. split; vm_compute; reflexivity.
Defined.

Lemma issue_needs_changes_token_and_hashes_witness :
  exists issue html_url changes token,
    Notifier.create_change_notification github (Some [stale_event])
      = Notifier.Created issue html_url /\
    Some [stale_event] = Some changes /\ changes <> [] /\
    Notifier.GITHUB_TOKEN github = Some token /\ token <> [] /\
    Forall (fun change => is_Some (content_hash (document change))) changes /\
    Notifier.create_issue github issue = Some html_url /\
    Notifier.issue_labels issue = [u "faa-acs"; u "document-update"; u "automated"].
Proof.
  destruct (Notifier.create_change_notification github (Some [stale_event]))
    as [| | | |issue html_url] eqn:Hrun; try (vm_compute in Hrun; discriminate Hrun).
  destruct (issue_needs_changes_token_and_hashes github (Some [stale_event]) issue html_url
              Hrun) as (changes & token & H).
  exists issue, html_url, changes, token. split; [reflexivity | exact H].
Defined.

(** X21 on a server that fails the one request for the body of the new
    document and answers at every other time. *)
Lemma notifier_raises_after_failed_fetch_witness :
  Notifier.create_change_notification github
    (changes_json (store (snd (monitor ascii_builtins flaky
                                 (world (Records [known]) None)))))
    = Notifier.Raised.
Proof.
  apply (notifier_raises_after_failed_fetch ascii_builtins flaky
           (world (Records [known]) None) 0 other_link github).
  - reflexivity.
  - intros [Heq|[]]. vm_compute in Heq. discriminate Heq.
  - vm_compute. exact I.
  - eexists _, _. reflexivity.
  - reflexivity.
Defined.

(** X22 for the tracked document, and for one whose file name the file
    system refuses. *)
Lemma header_drift_is_reported_witness :
  let w := world (Records [known]) None in
  let r := check_document_changes ascii_builtins (server "E2" body) known w in
  (fst (fst r) = true /\
   etag (snd (fst r)) = Some (u "E2") /\
   acs_documents (store (snd r)) !! stored_path ascii_builtins known = Some body) /\
  check_document_changes ascii_builtins limited_server long_named w =
    ((false, updated_doc_of long_named (head_of "E2") (Some 100%Z) (stamp 1)),
     after_call (after_call (after_call w))).
Proof.
  cbv zeta. split.
  - destruct (header_drift_is_reported ascii_builtins (server "E2" body) known
                (head_of "E2") (Some 100%Z) {| get_status_code := 200; content := body |}
                (world (Records [known]) None)
                (conj eq_refl (conj eq_refl eq_refl)) eq_refl (conj eq_refl eq_refl))
      as [H1 H2].
    cbv zeta in *. rewrite H1. split; [reflexivity|]. split; [reflexivity | exact H2].
  - exact (header_drift_is_reported ascii_builtins limited_server long_named
             (head_of "E2") (Some 100%Z) {| get_status_code := 200; content := body |}
             (world (Records [known]) None)
             (conj eq_refl (conj eq_refl eq_refl)) eq_refl (conj eq_refl eq_refl)).
Defined.

End MoreScenarios.

(** ** A failed probe within a run *)

Section ProbeFailure.
Import Monitor MonitorNotions.
Context (py : Builtins) (env : Env).

Lemma check_unreachable (known : ACSDocument) (w : World) :
  (forall t, session_head env t (url known) = None) ->
  check_document_changes py env known w = ((false, known), after_call w).
Proof.
  intros Hdown. apply check_not_probed. intros h size (Hh & _).
  rewrite Hdown in Hh. discriminate Hh.
Qed.

Lemma monitor_loop_unreachable (K : gmap str ACSDocument) (docs : list ACSDocument)
    (cs : list ChangeEvent) (ds : list ACSDocument) (w : World) :
  (forall u_ k, K !! u_ = Some k -> url k = u_) ->
  exists evs ds',
    fst (for_each (monitor_step py env K) docs (cs, ds) w) = (cs ++ evs, ds ++ ds') /\
    (forall doc known, In doc docs -> K !! url doc = Some known ->
       (forall t, session_head env t (url doc) = None) -> In known ds') /\
    (forall u_, (forall t, session_head env t u_ = None) -> is_Some (K !! u_) ->
       Forall (fun ev => url (document ev) <> u_) evs).
Proof.
  intros HK. revert cs ds w.
  induction docs as [|doc docs IH]; intros cs ds w; cbn [for_each].
  - exists [], []. rewrite !app_nil_r. repeat split; [intros ? ? []|constructor].
  - rewrite bind_run.
    destruct (monitor_step_outcome py env K cs ds doc w HK)
      as (evs & d & w1 & Hstep & [Hurl Hturn] & _).
    assert (Hdown : forall known, K !! url doc = Some known ->
              (forall t, session_head env t (url doc) = None) -> d = known /\ evs = []).
    { intros known Hk Hfail. unfold monitor_step in Hstep. rewrite Hk in Hstep.
      rewrite bind_run in Hstep.
      rewrite check_unreachable in Hstep
        by (rewrite (HK _ _ Hk); exact Hfail).
      cbn [fst snd] in Hstep. rewrite bind_run in Hstep. simpl in Hstep.
      injection Hstep as Hcs Hds _.
      apply app_inv_head in Hds. injection Hds as <-.
      rewrite <- (app_nil_r cs) in Hcs at 1. apply app_inv_head in Hcs. by subst evs. }
    rewrite Hstep. cbn [fst snd].
    destruct (IH (cs ++ evs) (ds ++ [d]) w1) as (evs' & ds' & Hloop & Hkept & Hquiet).
    exists (evs ++ evs'), (d :: ds').
    split; [rewrite Hloop, <- !app_assoc; reflexivity|].
    assert (Hquiet' : forall u_, (forall t, session_head env t u_ = None) ->
              is_Some (K !! u_) -> Forall (fun ev => url (document ev) <> u_) (evs ++ evs')).
    { intros u_ Hfail Hsome. apply Forall_app. split; [|by apply Hquiet].
      destruct (K !! url doc) as [known|] eqn:Hk.
      - destruct (decide (url doc = u_)) as [<-|Hne].
        + destruct (Hdown known eq_refl Hfail) as [_ ->]. constructor.
        + destruct Hturn as [->|([t ->] & _)]; repeat constructor.
          simpl. by rewrite Hurl.
      - destruct Hturn as [_ [t ->]]. repeat constructor. simpl. rewrite Hurl.
        intros Heq. rewrite <- Heq, Hk in Hsome. by destruct Hsome. }
    split; [|exact Hquiet'].
    intros doc' known [<-|Hin] Hk Hfail.
    + destruct (Hdown known Hk Hfail) as [-> _]. by left.
    + right. by apply (Hkept doc' known).
Qed.

(** X23: a tracked document whose probe cannot be made in a run (the HEAD
    request raises) stays in the saved registry with the very record the
    registry held for it, and the run logs no event for its URL. *)
Theorem unreachable_document_keeps_its_record
    (w : World) (link : str * str) (known : ACSDocument) :
  In link (links_at env (tick w)) ->
  index_by_url (fst (load_known_documents w)) !! snd link = Some known ->
  (forall t, session_head env t (snd link) = None) ->
  exists saved s,
    known_documents_json (store (snd (monitor py env w))) = Records saved /\
    In known saved /\
    last_run_summary_json (store (snd (monitor py env w))) = Some s /\
    Forall (fun ev => url (document ev) <> snd link) (changes s).
Proof.
  intros Hin Hknown Hdown.
  rewrite (monitor_run py env w). cbv zeta. unfold run_loop.
  destruct (discover_spec env w) as [Hdisc _].
  destruct (monitor_loop_unreachable (index_by_url (fst (load_known_documents w)))
              (fst (discover_acs_documents env w)) [] []
              (snd (discover_acs_documents env w)))
    as (evs & ds & Hloop & Hkept & Hquiet).
  { intros u_ k. apply index_by_url_sound. }
  rewrite Hloop. cbn [fst snd app].
  eexists _, _. split; [reflexivity|]. cbn [changes].
  assert (exists t, In (discovered_document link t) (fst (discover_acs_documents env w)))
    as [t_seen Hseen].
  { clear -Hdisc Hin. induction Hdisc as [|l d ls dsx [t ->] _ IH]; [destruct Hin|].
    destruct Hin as [->|Hin].
    - exists t. by left.
    - destruct (IH Hin) as [t' Ht']. exists t'. by right. }
  split; [|split; [reflexivity|]].
  - exact (Hkept _ known Hseen Hknown Hdown).
  - apply Hquiet; [exact Hdown | by rewrite Hknown].
Qed.

End ProbeFailure.

(** ** Contents are within one line *)

Section EngineLines.
Import Re Processor EngineNotions.
Context (digit : N -> bool).

Lemma run_app_inv (p1 p2 : pattern) (s : str) (pos : nat) (ms : list (nat * nat))
    (e : nat) (ms' : list (nat * nat)) :
  run digit (p1 ++ p2) s pos ms = Some (e, ms') ->
  exists mid ms1,
    pos <= mid /\ run digit p2 (skipn (mid - pos) s) mid ms1 = Some (e, ms').
Proof.
  revert s pos ms. induction p1 as [|i p1 IH]; intros s pos ms; simpl.
  - intros H. exists pos, ms. rewrite Nat.sub_diag. simpl. split; [lia | exact H].
  - destruct i as [cs|cs lo hi|k].
    + destruct s as [|c s]; [discriminate|].
      destruct (cset_match digit cs c); [|discriminate].
      intros H. apply IH in H as (mid & ms1 & Hmid & Hrun).
      exists mid, ms1. split; [lia|].
      replace (mid - pos) with (S (mid - S pos)) by lia. exact Hrun.
    + generalize (run_length digit cs hi s). intros k.
      induction k as [|k IHk].
      * destruct (lo <=? 0); [|discriminate].
        destruct (run digit (p1 ++ p2) (skipn 0 s) (pos + 0) ms) as [[e1 ms1]|] eqn:Hr;
          [|discriminate].
        intros [= <- <-]. apply IH in Hr as (mid & ms2 & Hmid & Hrun).
        exists mid, ms2. split; [lia|].
        rewrite skipn_skipn in Hrun. replace (mid - pos) with (mid - (pos + 0) + 0) by lia.
        exact Hrun.
      * destruct (lo <=? S k); [|exact IHk].
        destruct (run digit (p1 ++ p2) (skipn (S k) s) (pos + S k) ms) as [[e1 ms1]|] eqn:Hr;
          [|exact IHk].
        intros [= <- <-]. apply IH in Hr as (mid & ms2 & Hmid & Hrun).
        exists mid, ms2. split; [lia|].
        rewrite skipn_skipn in Hrun.
        replace (mid - pos) with (mid - (pos + S k) + S k) by lia. exact Hrun.
    + intros H. apply IH in H as (mid & ms1 & Hmid & Hrun). exists mid, ms1. by split.
Qed.

Lemma run_length_all (cs : cset) (hi : option nat) (s : str) :
  Forall (fun c => cset_match digit cs c = true) (firstn (run_length digit cs hi s) s).
Proof.
  revert hi. induction s as [|c s IH]; intros hi; simpl.
  - destruct hi as [[|n]|]; constructor.
  - destruct hi as [[|n]|]; simpl; [constructor| |];
      destruct (cset_match digit cs c) eqn:Hc; simpl; constructor; auto.
Qed.

Lemma run_line_tail (s : str) (mid : nat) (ms1 : list (nat * nat))
    (e : nat) (ms' : list (nat * nat)) :
  run digit line_tail s mid ms1 = Some (e, ms') ->
  ms' = (3, e) :: (2, mid) :: ms1 /\ mid <= e /\
  Forall (fun c => c <> 10%N) (firstn (e - mid) s).
Proof.
  unfold line_tail. cbn [run].
  pose proof (run_length_all (Class true [CChr 10]) None s) as Hall.
  revert Hall. generalize (run_length digit (Class true [CChr 10]) None s). intros k.
  induction k as [|k IHk]; intros Hall; [discriminate|].
  cbn [Nat.leb]. intros [= <- <-]. split; [reflexivity|]. split; [lia|].
  replace (mid + S k - mid) with (S k) by lia.
  eapply Forall_impl; [exact Hall|]. intros c Hc ->. vm_compute in Hc. discriminate Hc.
Qed.

Lemma scan_from_run (p : pattern) (s : str) (pos skip : nat) (m : rmatch) :
  In m (scan digit p s pos skip) ->
  exists j, m_start m = pos + j /\
            run digit p (skipn j s) (pos + j) [] = Some (m_end m, m_marks m).
Proof.
  revert pos skip. induction s as [|c s IH]; intros pos skip; cbn [scan]; [intros []|].
  assert (Hrest : forall k, In m (scan digit p s (S pos) k) ->
            exists j, m_start m = pos + j /\
              run digit p (skipn j (c :: s)) (pos + j) [] = Some (m_end m, m_marks m)).
  { intros k Hin. apply IH in Hin as (j & Hstart & Hrun).
    exists (S j). split; [lia|]. simpl. replace (pos + S j) with (S pos + j) by lia.
    exact Hrun. }
  destruct skip as [|k]; [|apply Hrest].
  destruct (run digit p (c :: s) pos []) as [[e ms]|] eqn:Hr; [|apply Hrest].
  intros [<-|Hin]; [|by apply Hrest in Hin].
  exists 0. simpl. rewrite Nat.add_0_r. split; [reflexivity | exact Hr].
Qed.

Lemma group2_single_line (pre : pattern) (text : str) (m : rmatch) :
  In m (scan digit (pre ++ line_tail) text 0 0) ->
  ~ In 10%N (group text m 2).
Proof.
  intros Hin. apply scan_from_run in Hin as (j & Hstart & Hrun). simpl in Hrun.
  apply run_app_inv in Hrun as (mid & ms1 & Hmid & Hrun).
  rewrite skipn_skipn in Hrun. replace (mid - j + j) with mid in Hrun by lia.
  apply run_line_tail in Hrun as (Hmarks & Hle & Hall).
  unfold group. rewrite Hmarks. cbn. unfold substring.
  intros H10. rewrite Forall_forall in Hall.
  apply list_elem_of_In in H10. by apply Hall in H10.
Qed.

Lemma rule_ends_with_line (p : string) :
  In p (section_patterns ++ [aoo_pattern; task_pattern]) ->
  exists pre, compile p = Some (pre ++ line_tail).
Proof.
  assert (Hsplit : forall r, skipn (length r - 3) r = line_tail ->
            r = firstn (length r - 3) r ++ line_tail).
  { intros r <-. by rewrite firstn_skipn. }
  simpl. intros H.
  repeat (destruct H as [<-|H];
          [match goal with |- exists pre, ?c = _ =>
             let r := eval vm_compute in c in
             match r with Some ?r' =>
               exists (firstn (length r' - 3) r');
               transitivity (Some r'); [vm_compute; reflexivity|];
               f_equal; apply Hsplit; vm_compute; reflexivity
             end
           end|]).
  destruct H.
Qed.

Lemma stripped_single_line (pre : pattern) (p : string) (text : str) :
  compile p = Some (pre ++ line_tail) ->
  Forall (fun m => ~ In 10%N (strip (group text m 2))) (Re.finditer digit p text).
Proof.
  intros Hp. unfold Re.finditer. rewrite Hp. apply Forall_forall. intros m Hm.
  apply list_elem_of_In in Hm. intros H10.
  apply (group2_single_line pre text m Hm).
  unfold strip in H10. by apply rstrip_incl, lstrip_incl in H10.
Qed.

End EngineLines.

Section ProcessorLines.
Import Re Processor EngineNotions.
Context (py : Builtins).

(** X24: no content spans a line break: the content of every section, the
    title of every area of operation and the title of every task hold no
    newline character. *)
Theorem contents_are_single_line (text : str) :
  Forall (fun sec => ~ In 10%N (sec_content sec)) (parse_acs_sections py text) /\
  Forall (fun area => ~ In 10%N (title area))
         (areas_of_operation (extract_acs_standards py text)) /\
  Forall (fun task => ~ In 10%N (task_title task))
         (tasks (extract_acs_standards py text)).
Proof.
  split; [|split].
  - unfold parse_acs_sections.
    eapply Permutation_Forall; [symmetry; apply sort_by_perm|].
    apply Forall_flat_map. apply Forall_forall. intros p Hp.
    apply list_elem_of_In in Hp.
    destruct (rule_ends_with_line p) as [pre Hpre]; [apply in_or_app; by left|].
    apply Forall_map. exact (stripped_single_line (re_digit py) pre p text Hpre).
  - destruct (rule_ends_with_line aoo_pattern) as [pre Hpre];
      [apply in_or_app; right; by left|].
    unfold extract_acs_standards. cbn [areas_of_operation]. apply Forall_map.
    exact (stripped_single_line (re_digit py) pre aoo_pattern text Hpre).
  - destruct (rule_ends_with_line task_pattern) as [pre Hpre];
      [apply in_or_app; right; right; by left|].
    unfold extract_acs_standards. cbn [tasks]. apply Forall_map.
    exact (stripped_single_line (re_digit py) pre task_pattern text Hpre).
Qed.

End ProcessorLines.

(** ** Matching ignores the case of ASCII letters *)

Section EngineCase.
Import Re EngineNotions.
Context (digit : N -> bool).
Hypothesis digit_upper : forall c, digit (ascii_upper c) = digit c.

Lemma ascii_upper_cases (c : N) :
  (97 <= c <= 122 /\ ascii_upper c = c - 32)%N \/
  ((c < 97 \/ 122 < c)%N /\ ascii_upper c = c).
Proof.
  unfold ascii_upper.
  destruct (N.leb_spec 97 c); destruct (N.leb_spec c 122); simpl; first [left; lia | right; lia].
Qed.

Lemma lower_upper (c : N) : lower (ascii_upper c) = lower c.
Proof.
  destruct (ascii_upper_cases c) as [[Hc ->]|[_ ->]]; [|reflexivity].
  unfold lower.
  destruct (N.leb_spec 65 (c - 32)); [|lia]. destruct (N.leb_spec (c - 32) 90); [|lia].
  destruct (N.leb_spec 65 c); [|lia]. destruct (N.leb_spec c 90); [lia|].
  destruct (N.eqb_spec c 304); [lia|]. destruct (N.eqb_spec c 8490); [lia|].
  simpl. lia.
Qed.

Lemma letter_is_no_space (c : N) : (65 <= c <= 122)%N -> isspace c = false.
Proof.
  intros Hc. unfold isspace.
  replace (c <=? 13)%N with false by (symmetry; apply N.leb_gt; lia).
  replace (c <=? 32)%N with false by (symmetry; apply N.leb_gt; lia).
  replace (c =? 133)%N with false by (symmetry; apply N.eqb_neq; lia).
  replace (c =? 160)%N with false by (symmetry; apply N.eqb_neq; lia).
  replace (c =? 5760)%N with false by (symmetry; apply N.eqb_neq; lia).
  replace (8192 <=? c)%N with false by (symmetry; apply N.leb_gt; lia).
  replace (c =? 8232)%N with false by (symmetry; apply N.eqb_neq; lia).
  replace (c =? 8233)%N with false by (symmetry; apply N.eqb_neq; lia).
  replace (c =? 8239)%N with false by (symmetry; apply N.eqb_neq; lia).
  replace (c =? 8287)%N with false by (symmetry; apply N.eqb_neq; lia).
  replace (c =? 12288)%N with false by (symmetry; apply N.eqb_neq; lia).
  by rewrite !andb_false_r.
Qed.

Lemma isspace_upper (c : N) : isspace (ascii_upper c) = isspace c.
Proof.
  destruct (ascii_upper_cases c) as [[Hc ->]|[_ ->]]; [|reflexivity].
  rewrite !letter_is_no_space by lia. reflexivity.
Qed.

Lemma iscased_iff (c : N) : iscased c = true <-> (65 <= c <= 90 \/ 97 <= c <= 122)%N.
Proof.
  unfold iscased.
  destruct (N.leb_spec 65 c); destruct (N.leb_spec c 90);
    destruct (N.leb_spec 97 c); destruct (N.leb_spec c 122); simpl;
    split; intros; try discriminate; try reflexivity; lia.
Qed.

Lemma uncased_upper (p c : N) :
  iscased p = false -> (ascii_upper c =? p)%N = (c =? p)%N.
Proof.
  intros Hp. destruct (ascii_upper_cases c) as [[Hc ->]|[_ ->]]; [|reflexivity].
  assert (Hno : ~ (65 <= p <= 90 \/ 97 <= p <= 122)%N).
  { intros H. apply iscased_iff in H. congruence. }
  destruct (N.eqb_spec (c - 32) p); destruct (N.eqb_spec c p); try reflexivity; lia.
Qed.

Lemma in_chars_between (lo hi x : N) :
  (lo <= x <= hi)%N -> In x (chars_between lo hi).
Proof.
  intros Hx. unfold chars_between. apply in_map_iff.
  exists (N.to_nat (x - lo)). split; [lia|]. apply in_seq. lia.
Qed.

Lemma citem_exact_upper (c : N) (i : citem) :
  citem_cased i = false -> citem_exact digit (ascii_upper c) i = citem_exact digit c i.
Proof using digit_upper.
  destruct i as [x|lo hi|k]; simpl; intros Hi.
  - by apply uncased_upper.
  - destruct (ascii_upper_cases c) as [[Hc Hup]|[_ ->]]; [|reflexivity]. rewrite Hup.
    assert (Hno : forall x, (lo <= x <= hi)%N -> ~ (65 <= x <= 90 \/ 97 <= x <= 122)%N).
    { intros x Hx Hcased. apply iscased_iff in Hcased.
      assert (Hex : existsb iscased (chars_between lo hi) = true)
        by (apply existsb_exists; exists x; split; [by apply in_chars_between | done]).
      congruence. }
    destruct (N.leb_spec lo (c - 32)); destruct (N.leb_spec (c - 32) hi);
      destruct (N.leb_spec lo c); destruct (N.leb_spec c hi); simpl; try reflexivity;
      exfalso; first [apply (Hno c); lia | apply (Hno (c - 32)%N); lia].
  - destruct k; simpl; [apply isspace_upper | apply digit_upper].
Qed.

Lemma cset_match_upper (cs : cset) (c : N) :
  cset_match digit cs (ascii_upper c) = cset_match digit cs c.
Proof using digit_upper.
  destruct cs as [p|neg items|k]; simpl.
  - destruct (iscased p) eqn:Hp; [by rewrite lower_upper | by apply uncased_upper].
  - f_equal. destruct (existsb citem_cased items) eqn:Hcased; [by rewrite lower_upper|].
    induction items as [|i items IH]; [reflexivity|]. simpl in *.
    apply orb_false_iff in Hcased as [Hi Hitems].
    rewrite (citem_exact_upper c i Hi), (IH Hitems). reflexivity.
  - destruct k; [apply isspace_upper | apply digit_upper].
Qed.

Lemma run_length_upper (cs : cset) (hi : option nat) (s : str) :
  run_length digit cs hi (upper_str s) = run_length digit cs hi s.
Proof using digit_upper.
  revert hi. induction s as [|c s IH]; intros hi; simpl; [reflexivity|].
  rewrite cset_match_upper.
  destruct hi as [[|n]|]; simpl; try reflexivity;
    destruct (cset_match digit cs c); try reflexivity; f_equal; apply IH.
Qed.

Lemma run_upper (p : pattern) (s : str) (pos : nat) (ms : list (nat * nat)) :
  run digit p (upper_str s) pos ms = run digit p s pos ms.
Proof using digit_upper.
  revert s pos ms. induction p as [|i p IH]; intros s pos ms; [reflexivity|].
  destruct i as [cs|cs lo hi|k]; simpl.
  - destruct s as [|c s]; [reflexivity|]. simpl. rewrite cset_match_upper.
    destruct (cset_match digit cs c); [apply IH | reflexivity].
  - assert (Hskip : forall k, skipn k (upper_str s) = upper_str (skipn k s))
      by (intros k; apply List.skipn_map).
    rewrite run_length_upper. generalize (run_length digit cs hi s). intros k.
    induction k as [|k IHk].
    + rewrite Hskip, IH. reflexivity.
    + rewrite Hskip, IH.
      destruct (lo <=? S k); [|exact IHk].
      destruct (run digit p (skipn (S k) s) (pos + S k) ms); [reflexivity | exact IHk].
  - apply IH.
Qed.

Lemma scan_upper (p : pattern) (s : str) (pos skip : nat) :
  scan digit p (upper_str s) pos skip = scan digit p s pos skip.
Proof using digit_upper.
  revert pos skip. induction s as [|c s IH]; intros pos skip; [reflexivity|].
  change (upper_str (c :: s)) with (ascii_upper c :: upper_str s).
  cbn [scan]. destruct skip as [|k]; [|apply IH].
  change (ascii_upper c :: upper_str s) with (upper_str (c :: s)). rewrite run_upper.
  destruct (run digit p (c :: s) pos []) as [[e ms]|]; [f_equal|]; apply IH.
Qed.

Lemma finditer_upper (p : string) (text : str) :
  Re.finditer digit p (upper_str text) = Re.finditer digit p text.
Proof using digit_upper. unfold Re.finditer. destruct (compile p); [apply scan_upper | reflexivity]. Qed.

Lemma group_upper (text : str) (m : rmatch) (g : nat) :
  group (upper_str text) m g = upper_str (group text m g).
Proof.
  assert (Hsub : forall a b, substring (upper_str text) a b = upper_str (substring text a b)).
  { intros a b. unfold substring, upper_str. by rewrite List.skipn_map, List.firstn_map. }
  unfold group. destruct g as [|g]; [apply Hsub|].
  destruct (lookup_mark _ _); [|reflexivity].
  destruct (lookup_mark _ _); [apply Hsub | reflexivity].
Qed.

Lemma lstrip_upper (s : str) : lstrip (upper_str s) = upper_str (lstrip s).
Proof.
  induction s as [|c s IH]; [reflexivity|]. simpl. rewrite isspace_upper.
  destruct (isspace c); [exact IH | reflexivity].
Qed.

Lemma strip_upper (s : str) : strip (upper_str s) = upper_str (strip s).
Proof.
  unfold strip, rstrip. rewrite lstrip_upper. unfold upper_str at 1.
  rewrite <- List.map_rev. fold (upper_str (rev (lstrip s))).
  rewrite lstrip_upper. unfold upper_str. by rewrite List.map_rev.
Qed.

End EngineCase.

Section SortMap.
Context {A : Type} (key : A -> nat) (f : A -> A).
Hypothesis key_f : forall x, key (f x) = key x.

Lemma insert_by_map (x : A) (l : list A) :
  insert_by key (f x) (List.map f l) = List.map f (insert_by key x l).
Proof using key_f.
  induction l as [|y l IH]; [reflexivity|]. simpl. rewrite !key_f.
  destruct (key x <=? key y); [reflexivity|]. simpl. by rewrite IH.
Qed.

Lemma sort_by_map (l : list A) :
  sort_by key (List.map f l) = List.map f (sort_by key l).
Proof using key_f.
  induction l as [|x l IH]; [reflexivity|].
  change (insert_by key (f x) (sort_by key (List.map f l)) =
          List.map f (insert_by key x (sort_by key l))).
  rewrite IH. apply insert_by_map.
Qed.

End SortMap.

Section ProcessorCase.
Import Re Processor EngineNotions.
Context (py : Builtins).

Lemma map_flat_map_comm {X Y Z} (f : Y -> Z) (g : X -> list Y) (l : list X) :
  List.map f (flat_map g l) = flat_map (fun x => List.map f (g x)) l.
Proof.
  induction l as [|x l IH]; [reflexivity|]. simpl. by rewrite List.map_app, IH.
Qed.

Lemma section_of_match_upper (text : str) (m : rmatch) :
  section_of_match (upper_str text) m = upper_section (section_of_match text m).
Proof.
  unfold section_of_match, upper_section.
  cbn [sec_type sec_content sec_position sec_length].
  rewrite !group_upper, !strip_upper. f_equal. apply length_map.
Qed.

(** X25: parsing ignores the case of ASCII letters: on the text with its
    lowercase ASCII letters made uppercase, [parse_acs_sections] and
    [extract_acs_standards] find the same sections and standards, at the
    same offsets and with the same lengths, with their strings rewritten the
    same way (letters are no digits). *)
Theorem parsing_ignores_ascii_case (text : str) :
  (forall c, re_digit py (ascii_upper c) = re_digit py c) ->
  parse_acs_sections py (upper_str text) =
    List.map upper_section (parse_acs_sections py text) /\
  extract_acs_standards py (upper_str text) =
    upper_standards (extract_acs_standards py text).
Proof.
  intros Hdigit.
  assert (Hfind : forall p, Processor.finditer py p (upper_str text) =
                            Processor.finditer py p text).
  { intros p. by apply finditer_upper. }
  assert (Hgroup : forall m g, strip (group (upper_str text) m g) =
                               upper_str (strip (group text m g))).
  { intros m g. by rewrite group_upper, strip_upper. }
  split.
  - unfold parse_acs_sections.
    rewrite <- (sort_by_map sec_position upper_section) by reflexivity.
    f_equal. induction section_patterns as [|p ps IH]; [reflexivity|].
    simpl. rewrite List.map_app, IH, Hfind. f_equal.
    rewrite List.map_map. apply map_ext. intros m. apply section_of_match_upper.
  - unfold extract_acs_standards, upper_standards.
    cbn [areas_of_operation tasks references objectives knowledge_elements
         risk_management skill_elements number title code task_title].
    rewrite !Hfind, !List.map_map.
    f_equal.
    + apply map_ext. intros m. by rewrite Hgroup, group_upper.
    + apply map_ext. intros m. by rewrite Hgroup, group_upper.
    + rewrite map_flat_map_comm. apply flat_map_ext. intros p.
      rewrite Hfind, List.map_map. apply map_ext. intros m. apply group_upper.
Qed.

End ProcessorCase.

(** ** The last properties at concrete inputs *)

Section LastScenarios.
Import Monitor MonitorNotions EngineNotions Scenario CaseScenario.

Lemma ascii_isdigit_upper (c : N) : ascii_isdigit (ascii_upper c) = ascii_isdigit c.
Proof.
  destruct (ascii_upper_cases c) as [[Hc ->]|[_ ->]]; [|reflexivity].
  unfold ascii_isdigit.
  destruct (N.leb_spec 48 (c - 32)); destruct (N.leb_spec (c - 32) 57);
    destruct (N.leb_spec 48 c); destruct (N.leb_spec c 57); simpl; try reflexivity; lia.
Qed.

Lemma unreachable_document_keeps_its_record_witness :
  let w := world (Records [known]) None in
  exists saved s,
    known_documents_json (store (snd (monitor ascii_builtins (unreachable [known_link]) w)))
      = Records saved /\
    In known saved /\
    last_run_summary_json (store (snd (monitor ascii_builtins (unreachable [known_link]) w)))
      = Some s /\
    Forall (fun ev => url (document ev) <> snd known_link) (changes s).
Proof.
  cbv zeta.
  apply (unreachable_document_keeps_its_record ascii_builtins (unreachable [known_link])
           (world (Records [known]) None) known_link known).
  - left. reflexivity.
  - vm_compute. reflexivity.
  - intros t. reflexivity.
Defined.

Lemma parsing_ignores_ascii_case_witness :
  Processor.parse_acs_sections ascii_builtins (upper_str lowercase_text) =
    List.map upper_section (Processor.parse_acs_sections ascii_builtins lowercase_text) /\
  Processor.extract_acs_standards ascii_builtins (upper_str lowercase_text) =
    upper_standards (Processor.extract_acs_standards ascii_builtins lowercase_text) /\
  length (Processor.parse_acs_sections ascii_builtins lowercase_text) = 2.
Proof.
  destruct (parsing_ignores_ascii_case ascii_builtins lowercase_text ascii_isdigit_upper)
    as [H1 H2].
  split; [exact H1|]. split; [exact H2|]. vm_compute. reflexivity.
Defined.

End LastScenarios.
